(** * Crypto portfolio tracker: the valuation engine, the price client,
      the symbol registry and the React workflows around them.

    The development embeds the TypeScript sources
    - [src/lib/cryptoApi.ts]      (registry and price client),
    - [components/PortfolioList]  (valuation pass, totals, delete, timer),
    - [components/AddPurchaseForm] (the add-purchase workflow)
    as Rocq functions and proves the properties the specification states.

    JavaScript numbers are IEEE 754 binary64 values: they are Rocq's
    primitive floats, so every arithmetic expression of the source is
    evaluated with the rounding the source has.  Strings are sequences of
    ASCII characters (the registry only holds such), promises are values of
    an exception monad, and React state is passed explicitly. *)

From Stdlib Require Import ZArith Bool Ascii String Floats.
From stdpp Require Import base option list strings pretty gmap.

Open Scope string_scope.
Open Scope list_scope.

(** ** JavaScript values *)

Module JS.

(** [!x] on a number is true for [0], [-0] and [NaN]. *)
Definition truthy_number (x : float) : bool :=
  negb (PrimFloat.eqb x 0%float || PrimFloat.is_nan x).

(** A [number | null | undefined] operand of [&&], [||], [!], [if]. *)
Definition truthy (x : option float) : bool :=
  match x with
  | Some v => truthy_number v
  | None => false
  end.

(** [!s] on a string is true for the empty string only. *)
Definition truthy_string (s : string) : bool :=
  match s with
  | EmptyString => false
  | String _ _ => true
  end.

Definition upper_char (c : ascii) : ascii :=
  let n := nat_of_ascii c in
  if (97 <=? n)%nat && (n <=? 122)%nat then ascii_of_nat (n - 32) else c.

Definition lower_char (c : ascii) : ascii :=
  let n := nat_of_ascii c in
  if (65 <=? n)%nat && (n <=? 90)%nat then ascii_of_nat (n + 32) else c.

(** [String.prototype.toUpperCase] on strings of ASCII characters, where
    the method turns [a]-[z] into [A]-[Z] and leaves every other character
    as it is. *)
Fixpoint toUpperCase (s : string) : string :=
  match s with
  | EmptyString => EmptyString
  | String c r => String (upper_char c) (toUpperCase r)
  end.

(** [String.prototype.toLowerCase] on strings of ASCII characters, where
    the method turns [A]-[Z] into [a]-[z] and leaves every other character
    as it is. *)
Fixpoint toLowerCase (s : string) : string :=
  match s with
  | EmptyString => EmptyString
  | String c r => String (lower_char c) (toLowerCase r)
  end.

(** [s.includes(t)]: [t] occurs in [s] at some position. *)
Fixpoint includes (s t : string) : bool :=
  String.prefix t s ||
  match s with
  | EmptyString => false
  | String _ r => includes r t
  end.

(** What a rejected promise or a [throw] carries.  [instanceOfError] is the
    answer of [err instanceof Error]; [message] is [err.message]. *)
Record thrown : Type := Thrown {
  instanceOfError : bool;
  message : string
}.

(** A settled promise, or the outcome of a block that may throw. *)
Inductive settled (A : Type) : Type :=
| Fulfilled (a : A)
| Rejected (e : thrown).
Arguments Fulfilled {A} a.
Arguments Rejected {A} e.

(** [await m] followed by the rest of the block. *)
#[export] Instance settled_ret : MRet settled := fun A a => Fulfilled a.
#[export] Instance settled_bind : MBind settled := fun A B k m =>
  match m with
  | Fulfilled a => k a
  | Rejected e => Rejected e
  end.

(** [try { m } catch (e) { h e }]. *)
Definition try_catch {A : Type} (m : settled A) (h : thrown -> settled A) : settled A :=
  match m with
  | Fulfilled a => Fulfilled a
  | Rejected e => h e
  end.

(** [Promise.all]: fulfilled with all the values, in order, when every
    promise is fulfilled; rejected otherwise, with a rejection among them
    (here the first in the order of the list). *)
Fixpoint promise_all {A : Type} (ps : list (settled A)) : settled (list A) :=
  match ps with
  | [] => Fulfilled []
  | p :: rest =>
      match p, promise_all rest with
      | Rejected e, _ => Rejected e
      | Fulfilled _, Rejected e => Rejected e
      | Fulfilled a, Fulfilled l => Fulfilled (a :: l)
      end
  end.

(** [new Error(msg)]. *)
Definition Error (msg : string) : thrown :=
  {| instanceOfError := true; message := msg |}.

(** [err instanceof Error ? err.message : fallback]. *)
Definition error_text (err : thrown) (fallback : string) : string :=
  if instanceOfError err then message err else fallback.

(** A block that awaits calls to the outside: the calls it made, in order,
    and how it ended. *)
Definition traced (E A : Type) : Type := list E * settled A.

#[export] Instance traced_ret {E : Type} : MRet (traced E) :=
  fun A a => ([], Fulfilled a).
#[export] Instance traced_bind {E : Type} : MBind (traced E) := fun A B k m =>
  match m with
  | (calls, Fulfilled a) => let '(more, r) := k a in (calls ++ more, r)
  | (calls, Rejected e) => (calls, Rejected e)
  end.

(** [await] of a call to the outside, settled as [r]. *)
Definition await_call {E A : Type} (call : E) (r : settled A) : traced E A :=
  ([call], r).

(** A step of the block itself, which may throw. *)
Definition step {E A : Type} (r : settled A) : traced E A := ([], r).

(** What [JSON.parse] (behind [response.json()]) can produce. *)
#[warnings="-register-all"]
Inductive value : Type :=
| JNull
| JBool (b : bool)
| JNum (n : float)
| JStr (s : string)
| JArr (elements : list value)
| JObj (members : list (string * value)).

(** Truthiness of a member read: [None] is [undefined]. *)
Definition truthy_value (v : option value) : bool :=
  match v with
  | None => false
  | Some JNull => false
  | Some (JBool b) => b
  | Some (JNum n) => truthy_number n
  | Some (JStr s) => truthy_string s
  | Some (JArr _) => true
  | Some (JObj _) => true
  end.

(** Own member [k] of a parsed object; of two members with one key
    [JSON.parse] keeps the later. *)
Fixpoint own_member (members : list (string * value)) (k : string) : option value :=
  match members with
  | [] => None
  | (k', v) :: rest =>
      match own_member rest k with
      | Some later => Some later
      | None => if String.eqb k' k then Some v else None
      end
  end.

Definition digit (c : ascii) : option nat :=
  let n := nat_of_ascii c in
  if (48 <=? n)%nat && (n <=? 57)%nat then Some (n - 48) else None.

Fixpoint digits (acc : nat) (s : string) : option nat :=
  match s with
  | EmptyString => Some acc
  | String c r =>
      match digit c with
      | Some d => digits (10 * acc + d) r
      | None => None
      end
  end.

(** A property key that is an array index: a canonical decimal numeral. *)
Definition array_index (k : string) : option nat :=
  match k with
  | EmptyString => None
  | String "0" EmptyString => Some 0
  | String "0" (String _ _) => None
  | String _ _ => digits 0 k
  end.

(** [v[k]].  Reading a member of [null] throws a [TypeError].  Members that
    are not carried by the parsed text (the [length] of an array or string,
    the characters of a string, the methods every value inherits) have no
    [usd] member of their own and are never [null]: the price client treats
    them exactly as it treats [undefined], which is how they are read
    here. *)
Definition get (v : value) (k : string) : settled (option value) :=
  match v with
  | JNull =>
      Rejected (Error ("Cannot read properties of null (reading '" +:+ k +:+ "')"))
  | JObj members => Fulfilled (own_member members k)
  | JArr elements =>
      Fulfilled (match array_index k with
                 | Some i => elements !! i
                 | None => None
                 end)
  | JBool _ | JNum _ | JStr _ => Fulfilled None
  end.

(** [v.k] behind a guard on [v]: a member of [undefined] or [null] is
    never read, the guard having decided before; any other [v] is read as
    [get] reads it. *)
Definition get_opt (v : option value) (k : string) : option value :=
  match v with
  | None | Some JNull => None
  | Some w =>
      match get w k with
      | Fulfilled r => r
      | Rejected _ => None
      end
  end.

(** What [fetch] resolves to: [ok], [status], and the promise of [json()],
    rejected when the body is not JSON. *)
Record response : Type := Response {
  ok : bool;
  status : nat;
  json : settled value
}.

End JS.

(** ** src/lib/cryptoApi.ts: the symbol registry and the price client *)

Module CryptoApi.
Import JS.

Record crypto : Type := Crypto {
  symbol : string;
  id : string;
  name : string
}.

Definition SUPPORTED_CRYPTOS : list crypto := [
  Crypto "BTC" "bitcoin" "Bitcoin";
  Crypto "ETH" "ethereum" "Ethereum";
  Crypto "USDT" "tether" "Tether";
  Crypto "BNB" "binancecoin" "BNB";
  Crypto "SOL" "solana" "Solana";
  Crypto "XRP" "ripple" "XRP";
  Crypto "USDC" "usd-coin" "USD Coin";
  Crypto "ADA" "cardano" "Cardano";
  Crypto "DOGE" "dogecoin" "Dogecoin";
  Crypto "TRX" "tron" "TRON";
  Crypto "AVAX" "avalanche-2" "Avalanche";
  Crypto "DOT" "polkadot" "Polkadot";
  Crypto "MATIC" "matic-network" "Polygon";
  Crypto "LTC" "litecoin" "Litecoin";
  Crypto "LINK" "chainlink" "Chainlink";
  Crypto "ATOM" "cosmos" "Cosmos";
  Crypto "UNI" "uniswap" "Uniswap";
  Crypto "XLM" "stellar" "Stellar";
  Crypto "ALGO" "algorand" "Algorand";
  Crypto "FIL" "filecoin" "Filecoin";
  Crypto "SUI" "sui" "Sui";
  Crypto "APT" "aptos" "Aptos";
  Crypto "ARB" "arbitrum" "Arbitrum";
  Crypto "OP" "optimism" "Optimism";
  Crypto "INJ" "injective-protocol" "Injective";
  Crypto "TIA" "celestia" "Celestia";
  Crypto "SEI" "sei-network" "Sei";
  Crypto "STX" "blockstack" "Stacks";
  Crypto "NEAR" "near" "NEAR Protocol";
  Crypto "ICP" "internet-computer" "Internet Computer";
  Crypto "IOTEX" "iotex" "IoTeX";
  Crypto "HBAR" "hedera-hashgraph" "Hedera";
  Crypto "VET" "vechain" "VeChain";
  Crypto "FTM" "fantom" "Fantom";
  Crypto "SAND" "the-sandbox" "The Sandbox";
  Crypto "MANA" "decentraland" "Decentraland";
  Crypto "AXS" "axie-infinity" "Axie Infinity";
  Crypto "GALA" "gala" "Gala";
  Crypto "THETA" "theta-token" "Theta Network";
  Crypto "XTZ" "tezos" "Tezos"
].

(** The predicate of [find] and [some] in [getCoinId] and [validateSymbol]. *)
Definition same_symbol (sym : string) (c : crypto) : bool :=
  String.eqb (toUpperCase (symbol c)) (toUpperCase sym).

(** [crypto?.id || symbol.toLowerCase()]. *)
Definition getCoinId (sym : string) : string :=
  match List.find (same_symbol sym) SUPPORTED_CRYPTOS with
  | Some c => if truthy_string (id c) then id c else toLowerCase sym
  | None => toLowerCase sym
  end.

Definition validateSymbol (sym : string) : bool :=
  existsb (same_symbol sym) SUPPORTED_CRYPTOS.

(** The network as the price client sees it: [fetch url] is rejected when
    the request fails or the ten-second [AbortSignal.timeout] fires. *)
Definition network : Type := string -> settled response.

Definition price_url (coinId : string) : string :=
  "https://api.coingecko.com/api/v3/simple/price?ids=" +:+ coinId +:+
  "&vs_currencies=usd".

Definition price_not_found (sym coinId : string) : thrown :=
  Error ("Price not found for " +:+ sym +:+ " (" +:+ coinId +:+ ")").

(** The fulfilled value is what [data[coinId].usd] reads: [None] would be
    [undefined], which the guard before the [return] excludes. *)
Definition getCurrentPrice (fetch : network) (sym : string) : settled (option value) :=
  try_catch
    (let coinId := getCoinId sym in
     response ← fetch (price_url coinId);
     if negb (ok response) then
       Rejected (Error ("API returned " +:+ pretty (status response)))
     else
       data ← json response;
       entry ← get data coinId;
       if negb (truthy_value entry) || negb (truthy_value (get_opt entry "usd"))
       then Rejected (price_not_found sym coinId)
       else Fulfilled (get_opt entry "usd"))
    (fun error => Rejected error).

Definition matches_query (upperQuery : string) (c : crypto) : bool :=
  includes (toUpperCase (symbol c)) upperQuery ||
  includes (toUpperCase (name c)) upperQuery.

Definition searchCryptos (query : string) : list crypto :=
  if negb (truthy_string query) then []
  else
    let upperQuery := toUpperCase query in
    take 5 (List.filter (matches_query upperQuery) SUPPORTED_CRYPTOS).

End CryptoApi.

(** ** The record store (lib/supabase.ts) as its callers see it *)

Module Supabase.

(** The row handed to [insert]. *)
Record new_purchase : Type := NewPurchase {
  symbol : string;
  purchase_date : string;
  amount : float;
  purchase_price_usd : float
}.

(** Requests issued against the [crypto_purchases] table. *)
Inductive request : Type :=
| Select
| Insert (row : new_purchase)
| Delete (id : string).

(** A request answers [{ data, error }]: here the [error] member, [None]
    for [null]; the promise itself may be rejected. *)
Definition answer : Type := JS.settled (option JS.thrown).

End Supabase.

(** ** components/PortfolioList: valuation pass, totals, delete, timer *)

Module PortfolioList.
Import JS.

(** [CryptoPurchase] with the optional members [PurchaseWithPrice] adds; a
    row as the store returns it has the three of them absent. *)
Record PurchaseWithPrice : Type := Purchase {
  id : string;
  symbol : string;
  purchase_date : string;
  amount : float;
  purchase_price_usd : option float;
  created_at : string;
  updated_at : string;
  currentPrice : option float;
  profitLoss : option float;
  profitLossPercent : option float
}.

(** The members of the persisted record. *)
Definition base (p : PurchaseWithPrice) :
    string * string * string * float * option float * string * string :=
  (id p, symbol p, purchase_date p, amount p, purchase_price_usd p,
   created_at p, updated_at p).

(** A row without derived members, as [select] yields it. *)
Definition CryptoPurchase (p : PurchaseWithPrice) : Prop :=
  currentPrice p = None /\ profitLoss p = None /\ profitLossPercent p = None.

(** [Set.prototype.add] on a set kept in insertion order. *)
Definition Set_add (s : list string) (x : string) : list string :=
  if bool_decide (x ∈ s) then s else s ++ [x].

(** [[...new Set(xs)]]. *)
Definition new_Set (xs : list string) : list string :=
  fold_left Set_add xs [].

(** [new Map(entries)]: a later entry replaces an earlier one. *)
Definition new_Map (entries : list (string * option float)) : gmap string (option float) :=
  fold_left (fun m e => <[e.1 := e.2]> m) entries ∅.

(** [priceMap.get(symbol)]: [null] and [undefined] are both read as no
    price. *)
Definition Map_get (m : gmap string (option float)) (k : string) : option float :=
  match m !! k with
  | Some (Some price) => Some price
  | Some None | None => None
  end.

(** One element of [pricePromises]. *)
Definition price_promise (getCurrentPrice : string -> settled float)
    (symbol : string) : settled (string * option float) :=
  try_catch
    (price ← getCurrentPrice symbol; mret (symbol, Some price))
    (fun error => mret (symbol, None)).

(** The callback of [purchasesData.map] in [fetchCurrentPrices]. *)
Definition update_purchase (priceMap : gmap string (option float))
    (purchase : PurchaseWithPrice) : PurchaseWithPrice :=
  match Map_get priceMap (symbol purchase), purchase_price_usd purchase with
  | Some currentPrice, Some purchase_price_usd =>
      if truthy_number currentPrice && truthy_number purchase_price_usd then
        let profitLoss := ((currentPrice - purchase_price_usd) * amount purchase)%float in
        let profitLossPercent :=
          ((currentPrice - purchase_price_usd) / purchase_price_usd * 100)%float in
        {| id := id purchase; symbol := symbol purchase;
           purchase_date := purchase_date purchase; amount := amount purchase;
           purchase_price_usd := Some purchase_price_usd;
           created_at := created_at purchase; updated_at := updated_at purchase;
           currentPrice := Some currentPrice;
           profitLoss := Some profitLoss;
           profitLossPercent := Some profitLossPercent |}
      else purchase
  | _, _ => purchase
  end.

Definition resolve_prices (getCurrentPrice : string -> settled float)
    (uniqueSymbols : list string) : settled (gmap string (option float)) :=
  prices ← promise_all (List.map (price_promise getCurrentPrice) uniqueSymbols);
  mret (new_Map prices).

(** The valuation pass.  [getCurrentPrice] gives, for each symbol, how the
    price client's promise settles; the result is the list handed to
    [setPurchases]. *)
Definition fetchCurrentPrices (getCurrentPrice : string -> settled float)
    (purchasesData : list PurchaseWithPrice) : settled (list PurchaseWithPrice) :=
  let uniqueSymbols := new_Set (List.map symbol purchasesData) in
  priceMap ← resolve_prices getCurrentPrice uniqueSymbols;
  let updatedPurchases := List.map (update_purchase priceMap) purchasesData in
  mret updatedPurchases.

(** The totals computed at render. *)
Definition totalValue (purchases : list PurchaseWithPrice) : float :=
  fold_left (fun sum p =>
    match currentPrice p with
    | Some price => if truthy_number price then (sum + price * amount p)%float else sum
    | None => sum
    end) purchases 0%float.

Definition totalCost (purchases : list PurchaseWithPrice) : float :=
  fold_left (fun sum p =>
    match purchase_price_usd p with
    | Some price => if truthy_number price then (sum + price * amount p)%float else sum
    | None => sum
    end) purchases 0%float.

Definition totalProfitLoss (purchases : list PurchaseWithPrice) : float :=
  (totalValue purchases - totalCost purchases)%float.

Definition totalProfitLossPercent (purchases : list PurchaseWithPrice) : float :=
  if PrimFloat.ltb 0 (totalCost purchases)
  then (totalProfitLoss purchases / totalCost purchases * 100)%float
  else 0%float.

(** What [handleDelete] leaves behind: the displayed list, the requests it
    sent to the store, and the text of the [alert], if any. *)
Record deleted : Type := Deleted {
  displayed : list PurchaseWithPrice;
  requests : list Supabase.request;
  alerted : option string
}.

Definition handleDelete (confirm : bool) (store : Supabase.request -> Supabase.answer)
    (purchases : list PurchaseWithPrice) (id0 : string) : deleted :=
  if negb confirm then Deleted purchases [] None
  else
    let attempt :=
      deleteError ← store (Supabase.Delete id0);
      match deleteError with
      | Some e => Rejected e
      | None => mret (List.filter (fun p => negb (String.eqb (id p) id0)) purchases)
      end in
    match attempt with
    | Fulfilled remaining => Deleted remaining [Supabase.Delete id0] None
    | Rejected err =>
        Deleted purchases [Supabase.Delete id0]
          (Some (error_text err "Failed to delete purchase"))
    end.

(** *** The interval timer of [useEffect(..., [purchases.length])] *)

(** An interval registered with [setInterval]: its handle, and the list
    its callback closes over. *)
Record interval : Type := Interval {
  handle : nat;
  closure : list PurchaseWithPrice
}.

(** What React keeps of the effect between two commits: the dependency
    [purchases.length] of its last run, and the handle the cleanup function
    returned by that run would clear, if the run returned one. *)
Record effect : Type := Effect {
  dep : nat;
  cleanup : option nat
}.

(** The mounted component: the committed [purchases], the effect ([None]
    before the mount and after the unmount), the intervals of the page
    that are running, and the next handle [setInterval] gives out. *)
Record component : Type := Component {
  purchases : list PurchaseWithPrice;
  timer_effect : option effect;
  intervals : list interval;
  next_handle : nat
}.

Definition clearInterval (h : nat) (running : list interval) : list interval :=
  List.filter (fun i => negb (handle i =? h)%nat) running.

Definition run_cleanup (c : option nat) (running : list interval) : list interval :=
  match c with
  | Some h => clearInterval h running
  | None => running
  end.

(** The body of the effect, run in the render whose state is
    [purchases]. *)
Definition run_effect (purchases : list PurchaseWithPrice)
    (running : list interval) (next : nat) : effect * list interval * nat :=
  if (length purchases =? 0)%nat then (Effect (length purchases) None, running, next)
  else (Effect (length purchases) (Some next),
        running ++ [Interval next purchases], S next).

(** React commits a render whose state is [purchases']: the effect runs at
    the mount, and later only when its dependency differs from the one of
    its last run, after the cleanup of that run. *)
Definition commit (purchases' : list PurchaseWithPrice) (c : component) : component :=
  match timer_effect c with
  | None =>
      let '(e, running, next) :=
        run_effect purchases' (intervals c) (next_handle c) in
      Component purchases' (Some e) running next
  | Some e =>
      if (dep e =? length purchases')%nat then
        Component purchases' (Some e) (intervals c) (next_handle c)
      else
        let '(e', running, next) :=
          run_effect purchases' (run_cleanup (cleanup e) (intervals c))
            (next_handle c) in
        Component purchases' (Some e') running next
  end.

Definition unmount (c : component) : component :=
  match timer_effect c with
  | Some e =>
      Component (purchases c) None (run_cleanup (cleanup e) (intervals c))
        (next_handle c)
  | None => c
  end.

(** Before the mount: [useState([])], no effect run, no interval. *)
Definition initial : component := Component [] None [] 0.

Inductive transition : component -> component -> Prop :=
| transition_commit (purchases' : list PurchaseWithPrice) (c : component) :
    transition c (commit purchases' c)
| transition_unmount (c : component) :
    transition c (unmount c).

Inductive reachable : component -> Prop :=
| reachable_initial : reachable initial
| reachable_next (c c' : component) :
    reachable c -> transition c c' -> reachable c'.

End PortfolioList.

(** ** components/AddPurchaseForm: the add-purchase workflow *)

Module AddPurchaseForm.
Import JS.

(** A [Date]: [None] is [Invalid Date], [Some t] a time value. *)
Definition Date : Type := option Z.

(** The fields of the form [handleSubmit] reads and writes. *)
Record form : Type := Form {
  symbol : string;
  purchaseDate : string;
  purchaseTime : string;
  amount : string;
  loading : bool;
  error : string
}.

Definition setError (msg : string) (f : form) : form :=
  Form (symbol f) (purchaseDate f) (purchaseTime f) (amount f) (loading f) msg.

Definition setLoading (b : bool) (f : form) : form :=
  Form (symbol f) (purchaseDate f) (purchaseTime f) (amount f) b (error f).

(** [setSymbol(''); setPurchaseDate(''); setPurchaseTime('12:00');
    setAmount('')]. *)
Definition clear (f : form) : form :=
  Form EmptyString EmptyString "12:00" EmptyString (loading f) (error f).

(** Calls that leave the component. *)
Inductive call : Type :=
| HistoricalPrice (symbol : string) (date : Date)
| Store (request : Supabase.request).

(** What a submission leaves behind: the form, the calls made, and whether
    [onPurchaseAdded] was called. *)
Record submitted : Type := Submitted {
  form_after : form;
  calls : list call;
  purchaseAdded : bool
}.

Definition double_quote : string := String (ascii_of_nat 34) EmptyString.

Definition not_supported (symbol : string) : string :=
  double_quote +:+ symbol +:+ double_quote +:+
  " is not a supported cryptocurrency. Please select from the suggestions.".

Section Environment.

(** [new Date(text)] in the local time zone. *)
Variable newDate : string -> Date.
(** [toISOString] of a valid date. *)
Variable toISOString : Z -> string.
Variable parseFloat : string -> float.
(** How the price client's promise settles. *)
Variable getHistoricalPrice : string -> Date -> settled float.
Variable store : Supabase.request -> Supabase.answer.

(** [Date.prototype.toISOString] throws a [RangeError] on [Invalid Date]. *)
Definition Date_toISOString (d : Date) : settled string :=
  match d with
  | Some t => Fulfilled (toISOString t)
  | None => Rejected (Error "Invalid time value")
  end.

(** The [try] block of [handleSubmit]. *)
Definition try_block (f : form) : traced call unit :=
  let purchaseDateTime := newDate (purchaseDate f +:+ "T" +:+ purchaseTime f) in
  historicalPrice ←
    await_call (HistoricalPrice (symbol f) purchaseDateTime)
      (getHistoricalPrice (symbol f) purchaseDateTime);
  purchase_date ← step (Date_toISOString purchaseDateTime);
  let row :=
    Supabase.NewPurchase (toUpperCase (symbol f)) purchase_date
      (parseFloat (amount f)) historicalPrice in
  dbError ← await_call (Store (Supabase.Insert row)) (store (Supabase.Insert row));
  match dbError with
  | Some e => step (Rejected e)
  | None => mret tt
  end.

Definition handleSubmit (f : form) : submitted :=
  let f := setError EmptyString f in
  if negb (CryptoApi.validateSymbol (symbol f)) then
    Submitted (setError (not_supported (symbol f)) f) [] false
  else
    let f := setLoading true f in
    match try_block f with
    | (made, Fulfilled _) => Submitted (setLoading false (clear f)) made true
    | (made, Rejected err) =>
        Submitted (setLoading false (setError (error_text err "Failed to add purchase") f))
          made false
    end.

(** The timestamp the form's date and time combine into: the
    [purchaseDateTime] of the [try] block. *)
Definition purchaseDateTime (f : form) : Date :=
  newDate (purchaseDate f +:+ "T" +:+ purchaseTime f).

(** The row a submission of [f] inserts, once the price is fetched. *)
Definition row_of (f : form) (t : Z) (historicalPrice : float) : Supabase.new_purchase :=
  Supabase.NewPurchase (toUpperCase (symbol f)) (toISOString t)
    (parseFloat (amount f)) historicalPrice.

End Environment.

End AddPurchaseForm.

(** ** The vocabulary of the statements, and the instances they are
       tried on *)

Section RegistryTerms.
Import JS CryptoApi.

(** [t] occurs in [s] when letter case is ignored. *)
Definition contains_ignoring_case (s t : string) : Prop :=
  exists pre post : string,
    toUpperCase s = pre +:+ toUpperCase t +:+ post.

(** A string of ASCII characters: every code is below 128.  On these
    [toUpperCase] and [toLowerCase] are the methods of the source.  On
    other characters the methods follow the Unicode tables (the Kelvin
    sign lower-cases to [k], the long s capitalises to [S]), which this
    development does not hold: what is stated about the letter case of an
    arbitrary string is stated of ASCII strings. *)
Fixpoint ascii_text (s : string) : bool :=
  match s with
  | EmptyString => true
  | String c r => (nat_of_ascii c <? 128)%nat && ascii_text r
  end.

(** The symbols of the table whose oracle id is the symbol in lower
    case. *)
Definition named_after_symbol : list string := ["SUI"; "NEAR"; "IOTEX"; "GALA"].

End RegistryTerms.

Section PriceClientTerms.
Import JS CryptoApi.

(** [data[coinId].usd] as the price client reads it; [None] when it cannot
    be read or the entry itself is falsy. *)
Definition usd_member (data : value) (coinId : string) : option value :=
  match get data coinId with
  | Fulfilled entry => if truthy_value entry then get_opt entry "usd" else None
  | Rejected _ => None
  end.

(** The price field of a body shaped as the oracle documents it,
    [{ [id]: { usd: number } }]. *)
Definition price_field (data : value) (coinId : string) : option float :=
  match data with
  | JObj members =>
      match own_member members coinId with
      | Some (JObj entry) =>
          match own_member entry "usd" with
          | Some (JNum price) => Some price
          | _ => None
          end
      | _ => None
      end
  | _ => None
  end.

(** C5 as stated: a price field present in a successful response is what
    the call returns. *)
Definition returns_present_price (fetch : network) (sym : string) : Prop :=
  forall r data price,
    fetch (price_url (getCoinId sym)) = Fulfilled r -> ok r = true ->
    json r = Fulfilled data ->
    price_field data (getCoinId sym) = Some price ->
    getCurrentPrice fetch sym = Fulfilled (Some (JNum price)).

(** The oracle answers [200] with [{"bitcoin": {"usd": 27000}}]. *)
Definition quote_27000_body : value :=
  JObj [("bitcoin", JObj [("usd", JNum 27000)])].

Definition quote_27000 : network :=
  fun _ => Fulfilled (Response true 200 (Fulfilled quote_27000_body)).

(** The oracle answers [200] with [{"bitcoin": {"usd": 0}}]. *)
Definition zero_quote_body : value :=
  JObj [("bitcoin", JObj [("usd", JNum 0)])].

Definition zero_quote : network :=
  fun _ => Fulfilled (Response true 200 (Fulfilled zero_quote_body)).

End PriceClientTerms.

Section ValuationTerms.
Import JS PortfolioList.

(** How a settled price promise is recorded: the price, or unknown. *)
Definition recorded (r : settled float) : option float :=
  match r with
  | Fulfilled price => Some price
  | Rejected _ => None
  end.

(** [update_purchase] reads the map at the record's own symbol only. *)
Definition revalue (price : option float) (p : PurchaseWithPrice) : PurchaseWithPrice :=
  update_purchase {[ symbol p := price ]} p.

(** Two rows as [select] returns them. *)
Definition btc_row : PurchaseWithPrice :=
  Purchase "7f1c" "BTC" "2023-01-01T12:00:00.000Z" 2 (Some 100%float)
    "2024-05-01T09:00:00.000Z" "2024-05-01T09:00:00.000Z" None None None.

Definition eth_row : PurchaseWithPrice :=
  Purchase "a2d0" "ETH" "2023-02-01T12:00:00.000Z" 1 (Some 1600%float)
    "2024-05-01T09:05:00.000Z" "2024-05-01T09:05:00.000Z" None None None.

(** [btc_row] after a pass that saw BTC at 150. *)
Definition btc_valued : PurchaseWithPrice :=
  Purchase "7f1c" "BTC" "2023-01-01T12:00:00.000Z" 2 (Some 100%float)
    "2024-05-01T09:00:00.000Z" "2024-05-01T09:00:00.000Z"
    (Some 150%float) (Some 100%float) (Some 50%float).

(** [eth_row] after a pass that saw ETH at 2000. *)
Definition eth_valued : PurchaseWithPrice :=
  Purchase "a2d0" "ETH" "2023-02-01T12:00:00.000Z" 1 (Some 1600%float)
    "2024-05-01T09:05:00.000Z" "2024-05-01T09:05:00.000Z"
    (Some 2000%float) (Some 400%float) (Some 25%float).

(** BTC trades at 150 and everything else at 2000. *)
Definition quotes : string -> settled float :=
  fun symbol =>
    if String.eqb symbol "BTC" then Fulfilled 150%float else Fulfilled 2000%float.

Definition btc_at_150 : string -> settled float :=
  fun _ => Fulfilled 150%float.

(** The price of BTC cannot be had; ETH trades at 2000. *)
Definition btc_unavailable : string -> settled float :=
  fun symbol =>
    if String.eqb symbol "BTC" then Rejected (Error "API returned 429")
    else Fulfilled 2000%float.

(** Every price request is refused. *)
Definition oracle_down : string -> settled float :=
  fun _ => Rejected (Error "API returned 429").

(** A price that counts as known: present, and neither zero nor [NaN]. *)
Definition known (price : option float) : option float :=
  if truthy price then price else None.

(** The terms [price * amount] of the positions whose price is known, in
    the order of the list. *)
Definition terms (price : PurchaseWithPrice -> option float)
    (purchases : list PurchaseWithPrice) : list float :=
  omap (fun p => (fun v => (v * amount p)%float) <$> known (price p)) purchases.

(** The sum of a list of numbers, taken from the left, from zero. *)
Definition sigma (xs : list float) : float :=
  fold_left PrimFloat.add xs 0%float.

(** The reducer shared by [totalValue] and [totalCost]. *)
Definition add_known (price : PurchaseWithPrice -> option float)
    (sum : float) (p : PurchaseWithPrice) : float :=
  match price p with
  | Some v => if truthy_number v then (sum + v * amount p)%float else sum
  | None => sum
  end.

(** The percentage as C3 words it: the quotient, but [0] when the cost is
    zero. *)
Definition percent_unless_zero_cost (purchases : list PurchaseWithPrice) : Prop :=
  totalProfitLossPercent purchases =
    if PrimFloat.eqb (totalCost purchases) 0 then 0%float
    else (totalProfitLoss purchases / totalCost purchases * 100)%float.

(** The positions of the data model: the amount is a positive number, and
    the purchase price, where the store holds one, is not negative. *)
Definition as_recorded (purchases : list PurchaseWithPrice) : Prop :=
  Forall (fun p =>
            PrimFloat.ltb 0 (amount p) = true /\
            forall v, purchase_price_usd p = Some v -> PrimFloat.ltb v 0 = false)
         purchases.

(** The last clause of C3 as it is worded: a position that misses either
    price is left out of both sums. *)
Definition excluded_when_missing_either (purchases : list PurchaseWithPrice) : Prop :=
  forall (before : list PurchaseWithPrice) p after,
    purchases = before ++ p :: after ->
    known (currentPrice p) = None \/ known (purchase_price_usd p) = None ->
    totalValue purchases = totalValue (before ++ after) /\
    totalCost purchases = totalCost (before ++ after).

(** A position entered with a negative amount: the form takes any number,
    the data model does not. *)
Definition short_btc : PurchaseWithPrice :=
  Purchase "5b9e" "BTC" "2023-01-01T12:00:00.000Z" (-1) (Some 100%float)
    "2024-05-01T09:00:00.000Z" "2024-05-01T09:00:00.000Z"
    (Some 150%float) (Some (-50)%float) (Some 50%float).

(** A price that is there and is zero. *)
Definition zero (price : option float) : Prop :=
  exists v, price = Some v /\ PrimFloat.eqb v 0 = true.

(** The same price with zero turned into a missing price. *)
Definition without_zero (price : option float) : option float :=
  match price with
  | Some v => if PrimFloat.eqb v 0 then None else Some v
  | None => None
  end.

(** The price client that fails wherever [getCurrentPrice] answers zero. *)
Definition zero_as_failure (getCurrentPrice : string -> settled float) :
    string -> settled float :=
  fun symbol =>
    match getCurrentPrice symbol with
    | Fulfilled v =>
        if PrimFloat.eqb v 0 then Rejected (Error "Price not found") else Fulfilled v
    | Rejected e => Rejected e
    end.

(** The record with a stored purchase price of zero turned into [null]. *)
Definition zero_cost_as_null (p : PurchaseWithPrice) : PurchaseWithPrice :=
  {| id := id p; symbol := symbol p; purchase_date := purchase_date p;
     amount := amount p;
     purchase_price_usd := without_zero (purchase_price_usd p);
     created_at := created_at p; updated_at := updated_at p;
     currentPrice := currentPrice p; profitLoss := profitLoss p;
     profitLossPercent := profitLossPercent p |}.

(** The members a valuation pass computes. *)
Definition derived (p : PurchaseWithPrice) : option float * option float * option float :=
  (currentPrice p, profitLoss p, profitLossPercent p).

(** A row whose purchase price the store holds as [null]. *)
Definition gift_eth : PurchaseWithPrice :=
  Purchase "e3b1" "ETH" "2023-03-01T12:00:00.000Z" 1 None
    "2024-05-01T09:10:00.000Z" "2024-05-01T09:10:00.000Z" None None None.

(** A row bought for nothing. *)
Definition free_btc : PurchaseWithPrice :=
  Purchase "0c44" "BTC" "2010-01-01T12:00:00.000Z" 2 (Some 0%float)
    "2024-05-01T09:00:00.000Z" "2024-05-01T09:00:00.000Z" None None None.

Definition store_accepts : Supabase.request -> Supabase.answer :=
  fun _ => Fulfilled None.

Definition store_refuses : Supabase.request -> Supabase.answer :=
  fun _ => Fulfilled (Some (Thrown false "permission denied for table crypto_purchases")).

(** What holds of the timer between two commits: before the mount and
    after the unmount no interval runs; mounted, the effect's dependency is
    the length of the committed list, and either the list is empty and no
    interval runs, or it is not and the one interval running is the one
    the effect's cleanup will clear. *)
Definition timer_invariant (c : component) : Prop :=
  match timer_effect c with
  | None => intervals c = []
  | Some e =>
      dep e = length (purchases c) /\
      match cleanup e with
      | None => dep e = 0 /\ intervals c = []
      | Some h =>
          dep e <> 0 /\ h < next_handle c /\
          exists closed, intervals c = [Interval h closed] /\ length closed = dep e
      end
  end.

(** C9 as stated, at one commit: a change of the record set tears the
    running timer down. *)
Definition recreated_on_change (c : component) (purchases' : list PurchaseWithPrice) : Prop :=
  purchases' <> purchases c ->
  forall i, i ∈ intervals c -> i ∉ intervals (commit purchases' c).

(** The component after the mount and the first listing of one row. *)
Definition loaded : component := commit [btc_row] (commit [] initial).

End ValuationTerms.

Section AddPurchaseTerms.
Import JS AddPurchaseForm.

(** The user's entries are the same in both forms. *)
Definition same_entries (f g : form) : Prop :=
  symbol f = symbol g /\ purchaseDate f = purchaseDate g /\
  purchaseTime f = purchaseTime g /\ amount f = amount g.

(** Noon of the first of January 2023, wherever the browser is. *)
Definition noon : string -> Date := fun _ => Some 1672574400000%Z.
Definition iso_noon : Z -> string := fun _ => "2023-01-01T12:00:00.000Z".
Definition one_unit : string -> float := fun _ => 1%float.

Definition history_at_16500 : string -> Date -> settled float :=
  fun _ _ => Fulfilled 16500%float.

Definition history_unavailable : string -> Date -> settled float :=
  fun _ _ => Rejected (Error "API returned 429").

Definition insert_accepted : Supabase.request -> Supabase.answer :=
  fun _ => Fulfilled None.

Definition notacoin_form : form :=
  Form "NOTACOIN" "2023-01-01" "12:00" "1" false EmptyString.

Definition btc_form : form :=
  Form "btc" "2023-01-01" "12:00" "1" false EmptyString.

End AddPurchaseTerms.

(** ** src/lib/cryptoApi.ts: the historical price client *)

Module CryptoApiHistory.
Import JS CryptoApi.

Fixpoint repeat_char (n : nat) (c : ascii) : string :=
  match n with
  | O => EmptyString
  | S m => String c (repeat_char m c)
  end.

(** [s.padStart(n, c)] for a pad [c] of one character. *)
Definition padStart (n : nat) (c : ascii) (s : string) : string :=
  repeat_char (n - String.length s) c +:+ s.

(** [String(x)] of a number that is an integer or, as [None], [NaN]. *)
Definition String_of {A : Type} `{Pretty A} (x : option A) : string :=
  match x with
  | Some v => pretty v
  | None => "NaN"
  end.

Section Calendar.

(** The calendar fields of a valid time value in the browser's time zone:
    what [getDate], [getMonth] and [getFullYear] answer.  On [Invalid Date]
    the three of them answer [NaN]. *)
Variable getDate : Z -> nat.
Variable getMonth : Z -> nat.
Variable getFullYear : Z -> Z.

Definition formatDateForApi (date : AddPurchaseForm.Date) : string :=
  let day := padStart 2 "0" (String_of (getDate <$> date)) in
  let month := padStart 2 "0" (String_of ((fun m => m + 1) <$> (getMonth <$> date))) in
  let year := String_of (getFullYear <$> date) in
  day +:+ "-" +:+ month +:+ "-" +:+ year.

Definition history_url (coinId formattedDate : string) : string :=
  "https://api.coingecko.com/api/v3/coins/" +:+ coinId +:+ "/history?date=" +:+
  formattedDate.

Definition historical_price_not_found (sym coinId formattedDate : string) : thrown :=
  Error ("Historical price not found for " +:+ sym +:+ " (" +:+ coinId +:+ ") on " +:+
         formattedDate).

(** [data.market_data?.current_price?.usd]: the first read throws on a
    [null] body, the two behind [?.] give [undefined] on [null] and
    [undefined]. *)
Definition getHistoricalPrice (fetch : network) (sym : string)
    (date : AddPurchaseForm.Date) : settled (option value) :=
  try_catch
    (let coinId := getCoinId sym in
     let formattedDate := formatDateForApi date in
     response ← fetch (history_url coinId formattedDate);
     if negb (ok response) then
       Rejected (Error ("API returned " +:+ pretty (status response)))
     else
       data ← json response;
       market_data ← get data "market_data";
       if negb (truthy_value (get_opt (get_opt market_data "current_price") "usd"))
       then Rejected (historical_price_not_found sym coinId formattedDate)
       else Fulfilled (get_opt (get_opt market_data "current_price") "usd"))
    (fun error => Rejected error).

End Calendar.

End CryptoApiHistory.

(** ** components/AddPurchaseForm: the symbol field and its suggestions *)

Module Suggestions.
Import JS CryptoApi.

(** The state behind the symbol field. *)
Record field : Type := Field {
  symbol : string;
  suggestions : list crypto;
  showSuggestions : bool
}.

Definition handleSymbolChange (value : string) (st : field) : field :=
  if (0 <? String.length value)%nat then
    let results := searchCryptos value in
    Field value results (0 <? length results)%nat
  else Field value [] false.

Definition selectSuggestion (selectedSymbol : string) (st : field) : field :=
  Field selectedSymbol [] false.

(** [onFocus]: [symbol && suggestions.length > 0 && setShowSuggestions(true)]. *)
Definition onFocus (st : field) : field :=
  if truthy_string (symbol st) && (0 <? length (suggestions st))%nat
  then Field (symbol st) (suggestions st) true
  else st.

(** A click outside the field and the list: [setShowSuggestions(false)]. *)
Definition clickOutside (st : field) : field :=
  Field (symbol st) (suggestions st) false.

(** What [handleSubmit] does to these cells when the insert went through:
    [setSymbol('')], and nothing to the suggestions and their flag. *)
Definition submitted (st : field) : field :=
  Field EmptyString (suggestions st) (showSuggestions st).

(** The suggestions the form lists: [showSuggestions &&
    suggestions.length > 0 && ...]. *)
Definition listed (st : field) : list crypto :=
  if showSuggestions st && (0 <? length (suggestions st))%nat
  then suggestions st else [].

(** What happens to the field: the user types, picks a suggestion, enters
    the field or clicks outside it, or a submit goes through. *)
Inductive event : Type :=
| Typed (value : string)
| Picked (c : crypto)
| Focused
| ClickedOutside
| Submitted.

(** The form offers for picking only what it lists.  A submit goes through
    only past the guard [validateSymbol(symbol)]; the field is disabled
    while the submit is under way, so until the submit settles its text is
    the one submitted or a suggestion picked since. *)
Definition offered (e : event) (st : field) : Prop :=
  match e with
  | Picked c => c ∈ listed st
  | Submitted => validateSymbol (symbol st) = true
  | _ => True
  end.

Definition handle (e : event) (st : field) : field :=
  match e with
  | Typed value => handleSymbolChange value st
  | Picked c => selectSuggestion (CryptoApi.symbol c) st
  | Focused => onFocus st
  | ClickedOutside => clickOutside st
  | Submitted => submitted st
  end.

(** [useState('')], [useState([])], [useState(false)]. *)
Definition initial : field := Field EmptyString [] false.

Inductive reachable : field -> Prop :=
| reachable_initial : reachable initial
| reachable_event (e : event) (st : field) :
    reachable st -> offered e st -> reachable (handle e st).

End Suggestions.

(** ** components/PortfolioList: the listing and the render *)

Module PortfolioPage.
Import JS PortfolioList.

(** The four [useState] cells of the component. *)
Record state : Type := State {
  purchases : list PurchaseWithPrice;
  loading : bool;
  error : string;
  pricesLoading : bool
}.

Definition setPurchases (l : list PurchaseWithPrice) (st : state) : state :=
  State l (loading st) (error st) (pricesLoading st).

Definition setLoading (b : bool) (st : state) : state :=
  State (purchases st) b (error st) (pricesLoading st).

Definition setError (msg : string) (st : state) : state :=
  State (purchases st) (loading st) msg (pricesLoading st).

Definition setPricesLoading (b : bool) (st : state) : state :=
  State (purchases st) (loading st) (error st) b.

(** [useState([])], [useState(true)], [useState('')], [useState(false)]. *)
Definition initial : state := State [] true EmptyString false.

(** What [select('*').order(...)] answers: [{ data, error }]. *)
Record selected : Type := Selected {
  data : option (list PurchaseWithPrice);
  fetchError : option thrown
}.

(** What a call of [fetchPurchases] leaves behind when its promise
    settles: the state, the requests sent to the store, and the list
    handed to the valuation pass it started without awaiting it, if it
    started one. *)
Record listed : Type := Listed {
  after : state;
  sent : list Supabase.request;
  started : option (list PurchaseWithPrice)
}.

Definition fetchPurchases (select : settled selected) (st : state) : listed :=
  let st := setLoading true st in
  let attempt : settled (list PurchaseWithPrice) :=
    answer ← select;
    match fetchError answer with
    | Some e => Rejected e
    | None =>
        mret (match data answer with
              | Some rows => rows
              | None => []
              end)
    end in
  match attempt with
  | Fulfilled purchasesData =>
      let st := setPurchases purchasesData st in
      if (0 <? length purchasesData)%nat then
        Listed (setLoading false (setPricesLoading true st)) [Supabase.Select]
          (Some purchasesData)
      else Listed (setLoading false st) [Supabase.Select] None
  | Rejected err =>
      Listed (setLoading false (setError (error_text err "Failed to load purchases") st))
        [Supabase.Select] None
  end.

(** The end of a valuation pass: [setPurchases(updatedPurchases);
    setPricesLoading(false)] on the state of that moment. *)
Definition pass_settles (getCurrentPrice : string -> settled float)
    (purchasesData : list PurchaseWithPrice) (st : state) : settled state :=
  updatedPurchases ← fetchCurrentPrices getCurrentPrice purchasesData;
  mret (setPricesLoading false (setPurchases updatedPurchases st)).

(** A cell of the table or of the summary. *)
Inductive cell : Type :=
| Dots
| NotAvailable
| Text (s : string).

(** The profit and loss cell, when it shows numbers: the icon and colour
    ([profitLoss >= 0]), the amount, and the percentage with its sign. *)
Record profit : Type := Profit {
  gain : bool;
  amount_text : string;
  percent_text : string
}.

Inductive profit_cell : Type :=
| ProfitDots
| ProfitNotAvailable
| ProfitShown (p : profit).

Record row : Type := Row {
  key : string;
  symbol_cell : string;
  amount_cell : float;
  date_cell : string;
  purchase_price_cell : cell;
  current_price_cell : cell;
  profit_loss_cell : profit_cell
}.

(** The summary: the three totals, and the colour of the third, green for
    [totalProfitLoss >= 0], which is set also while the prices load. *)
Record summary : Type := Summary {
  total_value_cell : cell;
  total_cost_cell : cell;
  total_profit_green : bool;
  total_profit_cell : profit_cell
}.

Inductive view : Type :=
| Spinner
| ErrorPanel (msg : string)
| NoPurchasesYet
| Table (s : summary) (rows : list row).

Section Formats.

(** [Intl.NumberFormat] for US dollars, [toLocaleString] for dates and
    [Number.prototype.toFixed(2)], as the browser gives them. *)
Variable formatCurrency : float -> string.
Variable formatDate : string -> string.
Variable toFixed2 : float -> string.

(** [(x > 0 ? '+' : '') + x.toFixed(2) + '%']. *)
Definition signed_percent (x : float) : string :=
  (if PrimFloat.ltb 0 x then "+" else EmptyString) +:+ toFixed2 x +:+ "%".

(** The profit and loss cell of a row.  [purchase.profitLossPercent!] is
    read without a test: on [undefined] the call of [toFixed] throws. *)
Definition render_profit (pricesLoading : bool) (p : PurchaseWithPrice) :
    settled profit_cell :=
  if pricesLoading then Fulfilled ProfitDots
  else
    match profitLoss p with
    | Some pl =>
        match profitLossPercent p with
        | Some pct =>
            Fulfilled (ProfitShown
              (Profit (PrimFloat.leb 0 pl) (formatCurrency (PrimFloat.abs pl))
                 (signed_percent pct)))
        | None =>
            Rejected (Error "Cannot read properties of undefined (reading 'toFixed')")
        end
    | None => Fulfilled ProfitNotAvailable
    end.

Definition render_row (pricesLoading : bool) (p : PurchaseWithPrice) : settled row :=
  profit_loss ← render_profit pricesLoading p;
  mret (Row (id p) (symbol p) (amount p) (formatDate (purchase_date p))
          (match purchase_price_usd p with
           | Some price =>
               if truthy_number price then Text (formatCurrency price) else NotAvailable
           | None => NotAvailable
           end)
          (if pricesLoading then Dots
           else match currentPrice p with
                | Some price =>
                    if truthy_number price then Text (formatCurrency price)
                    else NotAvailable
                | None => NotAvailable
                end)
          profit_loss).

Definition render_summary (pricesLoading : bool) (purchases : list PurchaseWithPrice) :
    summary :=
  Summary
    (if pricesLoading then Dots else Text (formatCurrency (totalValue purchases)))
    (Text (formatCurrency (totalCost purchases)))
    (PrimFloat.leb 0 (totalProfitLoss purchases))
    (if pricesLoading then ProfitDots
     else ProfitShown
            (Profit (PrimFloat.leb 0 (totalProfitLoss purchases))
               (formatCurrency (totalProfitLoss purchases))
               (signed_percent (totalProfitLossPercent purchases)))).

(** The render of the component; [Rejected] when the render throws.  The
    rows are rendered in the order of the list, and the first row that
    throws ends the render: what [promise_all] computes on settled
    values. *)
Definition render (st : state) : settled view :=
  if loading st then Fulfilled Spinner
  else if truthy_string (error st) then Fulfilled (ErrorPanel (error st))
  else if (length (purchases st) =? 0)%nat then Fulfilled NoPurchasesYet
  else
    rows ← promise_all (List.map (render_row (pricesLoading st)) (purchases st));
    mret (Table (render_summary (pricesLoading st) (purchases st)) rows).

End Formats.

End PortfolioPage.

(** ** components/PortfolioList: the handlers as events of the page *)

Module PortfolioEvents.
Import JS PortfolioList PortfolioPage.

(** The state of the component, and the lists that were its [purchases]
    so far: the lists a handler or an interval callback can have closed
    over. *)
Record world : Type := World {
  page : state;
  seen : list (list PurchaseWithPrice)
}.

(** What happens to the component.  A listing writes [loading] before it
    awaits the store and the rest when the store has answered; a valuation
    pass runs over the list its caller closed over, writes [pricesLoading]
    at its start and the result at its end; a confirmed delete filters the
    list the clicked button closed over. *)
Inductive event : Type :=
| ListingStarts
| ListingSettles (select : settled selected)
| PassStarts
| PassSettles (getCurrentPrice : string -> settled float)
    (purchasesData : list PurchaseWithPrice)
| DeleteSettles (store : Supabase.request -> Supabase.answer)
    (purchases : list PurchaseWithPrice) (id0 : string).

(** The rows the store answers are rows of the table: no derived
    members. *)
Definition store_rows (select : settled selected) : Prop :=
  forall answer rows, select = Fulfilled answer -> data answer = Some rows ->
    Forall CryptoPurchase rows.

(** An event can happen in a world: closures hold lists that were
    displayed, and the store answers with rows. *)
Definition possible (e : event) (w : world) : Prop :=
  match e with
  | ListingStarts | PassStarts => True
  | ListingSettles select => store_rows select
  | PassSettles _ purchasesData => purchasesData ∈ seen w
  | DeleteSettles _ purchases _ => purchases ∈ seen w
  end.

Definition write (st : state) (w : world) : world :=
  World st (purchases st :: seen w).

Definition handle (e : event) (w : world) : world :=
  match e with
  | ListingStarts => write (setLoading true (page w)) w
  | ListingSettles select => write (after (fetchPurchases select (page w))) w
  | PassStarts => write (setPricesLoading true (page w)) w
  | PassSettles getCurrentPrice purchasesData =>
      match pass_settles getCurrentPrice purchasesData (page w) with
      | Fulfilled st => write st w
      | Rejected _ => w
      end
  | DeleteSettles store purchases id0 =>
      match alerted (handleDelete true store purchases id0) with
      | None =>
          write (setPurchases (displayed (handleDelete true store purchases id0))
                   (page w)) w
      | Some _ => w
      end
  end.

(** The component at its mount. *)
Definition mounted : world := World PortfolioPage.initial [[]].

Inductive reachable : world -> Prop :=
| reachable_mounted : reachable mounted
| reachable_handle (e : event) (w : world) :
    reachable w -> possible e w -> reachable (handle e w).

End PortfolioEvents.

(** ** Further vocabulary and instances *)

Section DateTerms.
Import JS CryptoApi CryptoApiHistory.

(** A number below one hundred is written on two characters, from which
    it is read back. *)
Definition two_characters (n : nat) : bool :=
  match padStart 2 "0" (pretty n) with
  | String a (String b EmptyString) =>
      bool_decide (digits 0 (String a (String b EmptyString)) = Some n)
  | _ => false
  end.

(** [data.market_data?.current_price?.usd] of a body that is not
    [null]. *)
Definition historical_usd (data : value) : option value :=
  get_opt (get_opt (get_opt (Some data) "market_data") "current_price") "usd".

Definition is_null (v : value) : bool :=
  match v with
  | JNull => true
  | _ => false
  end.

(** The calendar of a browser for which the one instant asked about is
    the first of January 2023. *)
Definition first_day : Z -> nat := fun _ => 1.
Definition january : Z -> nat := fun _ => 0.
Definition year_2023 : Z -> Z := fun _ => 2023%Z.

(** The historical endpoint answers [200] with a body. *)
Definition history_answers (body : value) : network :=
  fun _ => Fulfilled (Response true 200 (Fulfilled body)).

(** [{"market_data": {"current_price": {"usd": 16500}}}]. *)
Definition history_body_16500 : value :=
  JObj [("market_data", JObj [("current_price", JObj [("usd", JNum 16500)])])].

(** A coin without market data on that day: [{"id": "bitcoin"}]. *)
Definition history_body_bare : value :=
  JObj [("id", JStr "bitcoin")].

(** The oracle is rate limited. *)
Definition too_many_requests : network :=
  fun _ => Fulfilled (Response false 429 (Fulfilled JNull)).

End DateTerms.

Section PageTerms.
Import JS PortfolioList.

(** The three derived members are there together or absent together. *)
Definition all_or_none (p : PurchaseWithPrice) : Prop :=
  derived p = (None, None, None) \/
  exists price pl pct, derived p = (Some price, Some pl, Some pct).

(** A position that a broken pass would have left with a profit and no
    percentage. *)
Definition half_valued : PurchaseWithPrice :=
  Purchase "7f1c" "BTC" "2023-01-01T12:00:00.000Z" 2 (Some 100%float)
    "2024-05-01T09:00:00.000Z" "2024-05-01T09:00:00.000Z"
    (Some 150%float) (Some 100%float) None.

End PageTerms.

(** ** Theorems *)

Section Registry.
Import JS CryptoApi.

Lemma prefix_split (t s : string) :
  String.prefix t s = true -> exists post, s = t +:+ post.
Proof.
  revert s. induction t as [|c t IH]; intros s H.
  - exists s. reflexivity.
  - destruct s as [|d s]; simpl in H; [discriminate|].
    destruct (Ascii.ascii_dec c d) as [->|]; [|discriminate].
    destruct (IH s H) as [post ->]. exists post. reflexivity.
Qed.

Lemma includes_occurs (s t : string) :
  includes s t = true -> exists pre post, s = pre +:+ t +:+ post.
Proof.
  induction s as [|c s IH]; intros H; cbn [includes] in H.
  - apply orb_prop in H as [H|H]; [|discriminate].
    apply prefix_split in H as [post ->]. exists "", post. reflexivity.
  - apply orb_prop in H as [H|H].
    + apply prefix_split in H as [post ->]. exists "", post. reflexivity.
    + destruct (IH H) as (pre & post & ->).
      exists (String c pre), post. reflexivity.
Qed.

Example validateSymbol_btc :
  validateSymbol "btc" = true /\ validateSymbol "NOTACOIN" = false.
Proof. split; reflexivity. Qed.

Example getCoinId_fallback :
  getCoinId "Btc" = "bitcoin" /\ getCoinId "NOTACOIN" = "notacoin".
Proof. split; reflexivity. Qed.

Example searchCryptos_bit :
  List.map symbol (searchCryptos "bit") = ["BTC"; "ARB"] /\
  List.map symbol (searchCryptos "a") = ["SOL"; "ADA"; "AVAX"; "DOT"; "MATIC"].
Proof. split; reflexivity. Qed.

Example array_index_canonical :
  array_index "0" = Some 0 /\ array_index "17" = Some 17 /\
  array_index "017" = None /\ array_index "1e3" = None /\ array_index "" = None.
Proof. repeat split. Qed.

(** C8. [searchCryptos ""] is the empty sequence; a search never returns
    more than five entries; every returned entry has the query inside its
    symbol or inside its display name, letter case ignored. *)
Theorem searchCryptos_spec :
  searchCryptos "" = [] /\
  (forall query, length (searchCryptos query) <= 5) /\
  (forall query c, c ∈ searchCryptos query ->
     contains_ignoring_case (symbol c) query \/
     contains_ignoring_case (name c) query).
Proof.
  split; [reflexivity|]. split.
  - intros query. unfold searchCryptos.
    destruct (negb (truthy_string query)); [cbn; lia|].
    cbv zeta. rewrite length_take. apply Nat.le_min_l.
  - intros query c. unfold searchCryptos.
    destruct (negb (truthy_string query)); [intros H; inversion H|].
    cbv zeta. intros H.
    apply elem_of_take in H as (i & H & _).
    apply list_elem_of_lookup_2, list_elem_of_In, filter_In in H as [_ H].
    unfold matches_query in H. apply orb_prop in H as [H|H];
      apply includes_occurs in H as (pre & post & H); [left|right];
      exists pre, post; exact H.
Qed.

End Registry.

Section Valuation.
Import JS PortfolioList.

Variable getCurrentPrice : string -> settled float.

Lemma price_promise_fulfilled (s : string) :
  price_promise getCurrentPrice s = Fulfilled (s, recorded (getCurrentPrice s)).
Proof.
  unfold price_promise. destruct (getCurrentPrice s); reflexivity.
Qed.

Lemma promise_all_fulfilled {A B : Type} (f : A -> settled B) (h : A -> B) (l : list A) :
  (forall x, f x = Fulfilled (h x)) ->
  promise_all (List.map f l) = Fulfilled (List.map h l).
Proof.
  intros Hf. induction l as [|x l IH]; [reflexivity|].
  cbn [List.map promise_all]. rewrite Hf, IH. reflexivity.
Qed.

Lemma Set_add_elem (acc : list string) (x y : string) :
  y ∈ Set_add acc x <-> y ∈ acc \/ y = x.
Proof.
  unfold Set_add. case_bool_decide as Hx.
  - split; [auto|]. intros [H| ->]; assumption.
  - rewrite elem_of_app, list_elem_of_singleton. reflexivity.
Qed.

Lemma fold_Set_add_elem (xs acc : list string) (y : string) :
  y ∈ fold_left Set_add xs acc <-> y ∈ acc \/ y ∈ xs.
Proof.
  revert acc. induction xs as [|x xs IH]; intros acc; cbn [fold_left].
  - rewrite elem_of_nil. tauto.
  - rewrite IH, Set_add_elem, elem_of_cons. tauto.
Qed.

Lemma new_Set_elem (xs : list string) (y : string) :
  y ∈ new_Set xs <-> y ∈ xs.
Proof.
  unfold new_Set. rewrite fold_Set_add_elem, elem_of_nil. tauto.
Qed.

Lemma fold_insert_lookup (f : string -> option float) (syms : list string)
    (m : gmap string (option float)) (s : string) :
  fold_left (fun m e => <[e.1 := e.2]> m) (List.map (fun x => (x, f x)) syms) m !! s
  = if bool_decide (s ∈ syms) then Some (f s) else m !! s.
Proof.
  revert m. induction syms as [|x syms IH]; intros m; cbn [List.map fold_left].
  - reflexivity.
  - rewrite IH. cbn [fst snd].
    destruct (decide (s ∈ syms)) as [Hin|Hin].
    + rewrite !bool_decide_eq_true_2; [reflexivity| |assumption].
      apply elem_of_cons; auto.
    + rewrite (bool_decide_eq_false_2 (s ∈ syms)) by assumption.
      destruct (decide (s = x)) as [->|Hne].
      * rewrite bool_decide_eq_true_2 by apply list_elem_of_here.
        apply lookup_insert_eq.
      * rewrite bool_decide_eq_false_2.
        -- apply lookup_insert_ne. congruence.
        -- rewrite elem_of_cons. tauto.
Qed.

(** The price fan-out always joins, and the map it builds holds, for each
    symbol asked, how that symbol's own promise settled. *)
Lemma resolve_prices_fulfilled (syms : list string) :
  exists priceMap,
    resolve_prices getCurrentPrice syms = Fulfilled priceMap /\
    forall s, s ∈ syms -> priceMap !! s = Some (recorded (getCurrentPrice s)).
Proof.
  unfold resolve_prices.
  rewrite (promise_all_fulfilled _ (fun s => (s, recorded (getCurrentPrice s))))
    by apply price_promise_fulfilled.
  eexists. split; [reflexivity|].
  intros s Hs. unfold new_Map.
  rewrite fold_insert_lookup, bool_decide_eq_true_2 by assumption. reflexivity.
Qed.

Lemma update_purchase_revalue (m : gmap string (option float)) (p : PurchaseWithPrice) :
  update_purchase m p = revalue (Map_get m (symbol p)) p.
Proof.
  unfold revalue, update_purchase.
  replace (Map_get {[symbol p := Map_get m (symbol p)]} (symbol p))
    with (Map_get m (symbol p)); [reflexivity|].
  unfold Map_get at 2. rewrite lookup_singleton_eq.
  destruct (Map_get m (symbol p)); reflexivity.
Qed.

Lemma fetchCurrentPrices_pointwise (purchasesData : list PurchaseWithPrice) :
  fetchCurrentPrices getCurrentPrice purchasesData
  = Fulfilled (List.map (fun p => revalue (recorded (getCurrentPrice (symbol p))) p)
                 purchasesData).
Proof.
  unfold fetchCurrentPrices.
  destruct (resolve_prices_fulfilled (new_Set (List.map symbol purchasesData)))
    as (priceMap & -> & Hget).
  cbn. f_equal. apply map_ext_in. intros p Hp.
  rewrite update_purchase_revalue. unfold Map_get at 1.
  rewrite Hget; [destruct (recorded (getCurrentPrice (symbol p))); reflexivity|].
  apply new_Set_elem, list_elem_of_In, in_map, Hp.
Qed.

Lemma update_purchase_base (m : gmap string (option float)) (p : PurchaseWithPrice) :
  base (update_purchase m p) = base p.
Proof.
  unfold update_purchase.
  destruct (Map_get m (symbol p)) as [cp|]; [|reflexivity].
  destruct (purchase_price_usd p) as [pp|] eqn:Hpp; [|reflexivity].
  destruct (truthy_number cp && truthy_number pp); [|reflexivity].
  unfold base. cbn. rewrite Hpp. reflexivity.
Qed.

Lemma revalue_rejected (p : PurchaseWithPrice) : revalue None p = p.
Proof.
  unfold revalue, update_purchase, Map_get. rewrite lookup_singleton_eq. reflexivity.
Qed.

Lemma revalue_known (cp pp : float) (p : PurchaseWithPrice) :
  truthy (Some cp) = true ->
  purchase_price_usd p = Some pp -> truthy (Some pp) = true ->
  revalue (Some cp) p =
    {| id := id p; symbol := symbol p; purchase_date := purchase_date p;
       amount := amount p; purchase_price_usd := Some pp;
       created_at := created_at p; updated_at := updated_at p;
       currentPrice := Some cp;
       profitLoss := Some ((cp - pp) * amount p)%float;
       profitLossPercent := Some ((cp - pp) / pp * 100)%float |}.
Proof.
  cbn [truthy]. intros Hcp Hpp Hpp'.
  unfold revalue, update_purchase, Map_get. rewrite lookup_singleton_eq.
  rewrite Hpp, Hcp, Hpp'. reflexivity.
Qed.

(** C1. The valuation pass never fails as a whole: whatever the list of
    records and however each symbol's price promise settles, the fan-out
    joins into a price map and the pass is fulfilled with a list.  In the
    map every symbol of the input holds the outcome of its own promise, a
    rejection being recorded as [null] for that symbol only; the result has
    one position per record, each with the record's persisted members. *)
Theorem valuation_pass_never_fails (purchasesData : list PurchaseWithPrice) :
  exists priceMap updated,
    resolve_prices getCurrentPrice (new_Set (List.map symbol purchasesData))
      = Fulfilled priceMap /\
    (forall p, p ∈ purchasesData ->
       priceMap !! symbol p = Some (recorded (getCurrentPrice (symbol p)))) /\
    fetchCurrentPrices getCurrentPrice purchasesData = Fulfilled updated /\
    updated = List.map (update_purchase priceMap) purchasesData /\
    List.map base updated = List.map base purchasesData.
Proof.
  destruct (resolve_prices_fulfilled (new_Set (List.map symbol purchasesData)))
    as (priceMap & Hres & Hget).
  exists priceMap, (List.map (update_purchase priceMap) purchasesData).
  split; [exact Hres|]. split.
  - intros p Hp. apply Hget, new_Set_elem, list_elem_of_In, in_map, list_elem_of_In, Hp.
  - split; [|split; [reflexivity|]].
    + unfold fetchCurrentPrices. rewrite Hres. reflexivity.
    + rewrite List.map_map. apply map_ext. intros p. apply update_purchase_base.
Qed.

(** C2. A record whose purchase price and current price are both known
    leaves the valuation pass with
    [profitLoss = (currentPrice - purchasePriceUsd) * amount] and
    [profitLossPercent = (currentPrice - purchasePriceUsd) / purchasePriceUsd * 100],
    at its own position of the result. *)
Theorem profit_and_loss_formulas (purchasesData : list PurchaseWithPrice)
    (i : nat) (p : PurchaseWithPrice) (price cost : float) :
  purchasesData !! i = Some p ->
  getCurrentPrice (symbol p) = Fulfilled price -> truthy (Some price) = true ->
  purchase_price_usd p = Some cost -> truthy (Some cost) = true ->
  exists updated valued,
    fetchCurrentPrices getCurrentPrice purchasesData = Fulfilled updated /\
    updated !! i = Some valued /\
    base valued = base p /\
    currentPrice valued = Some price /\
    profitLoss valued = Some ((price - cost) * amount p)%float /\
    profitLossPercent valued = Some ((price - cost) / cost * 100)%float.
Proof.
  intros Hi Hprice Hknown Hcost Hknown'.
  rewrite fetchCurrentPrices_pointwise.
  eexists. eexists. split; [reflexivity|]. split.
  - apply list_lookup_fmap_Some. eauto.
  - rewrite Hprice. cbn [recorded].
    rewrite (revalue_known price cost p Hknown Hcost Hknown').
    unfold base. cbn. rewrite Hcost. auto.
Qed.

End Valuation.

Section ValuationExamples.
Import JS PortfolioList.

(** C1, on an instance: BTC fails, ETH is still valued, the pass is
    fulfilled. *)
Lemma valuation_pass_survives_btc_failure :
  exists updated,
    fetchCurrentPrices btc_unavailable [btc_row; eth_row] = Fulfilled updated /\
    List.map currentPrice updated = [None; Some 2000%float].
Proof.
  destruct (valuation_pass_never_fails btc_unavailable [btc_row; eth_row])
    as (priceMap & updated & _ & Hmap & Hpass & Hupd & _).
  exists updated. split; [exact Hpass|].
  assert (Hbtc := Hmap btc_row ltac:(apply list_elem_of_here)).
  assert (Heth := Hmap eth_row ltac:(apply list_elem_of_further, list_elem_of_here)).
  rewrite Hupd. cbn [List.map]. unfold update_purchase, Map_get.
  rewrite Hbtc, Heth. reflexivity.
Defined.

(** C2, on the instance of the specification: bought at 100, two units,
    priced at 150, the position shows a profit of 100.0, that is 50.0
    percent. *)
Lemma profit_and_loss_100_2_150 :
  exists updated valued,
    fetchCurrentPrices btc_at_150 [btc_row] = Fulfilled updated /\
    updated !! 0 = Some valued /\
    profitLoss valued = Some 100%float /\
    profitLossPercent valued = Some 50%float.
Proof.
  destruct (profit_and_loss_formulas btc_at_150 [btc_row] 0 btc_row 150 100
              eq_refl eq_refl eq_refl eq_refl eq_refl)
    as (updated & valued & Hpass & Hi & _ & _ & Hpl & Hpct).
  exists updated, valued.
  split; [exact Hpass|]. split; [exact Hi|].
  split; [rewrite Hpl|rewrite Hpct]; reflexivity.
Defined.

(** On the load path the pass works on rows as the store lists them, and
    there a failed fetch leaves the position without derived members. *)
Lemma failed_fetch_on_store_rows (getCurrentPrice : string -> settled float)
    (purchasesData : list PurchaseWithPrice) (i : nat) (p : PurchaseWithPrice)
    (e : thrown) :
  purchasesData !! i = Some p -> CryptoPurchase p ->
  getCurrentPrice (symbol p) = Rejected e ->
  exists updated valued,
    fetchCurrentPrices getCurrentPrice purchasesData = Fulfilled updated /\
    updated !! i = Some valued /\ CryptoPurchase valued.
Proof.
  intros Hi Hrow He. rewrite fetchCurrentPrices_pointwise.
  exists (List.map (fun q => revalue (recorded (getCurrentPrice (symbol q))) q)
            purchasesData), p.
  split; [reflexivity|]. split; [|exact Hrow].
  apply list_lookup_fmap_Some. exists p. split; [|exact Hi].
  rewrite He. cbn [recorded]. symmetry. apply revalue_rejected.
Qed.

(** C4, where the code departs from it.  Two rows are listed and valued;
    one is deleted, which changes the length of the displayed list, so the
    effect sets up a new interval whose callback closes over the displayed
    list, derived members included.  When that callback runs the pass and
    the price of BTC cannot be had, the callback of [map] returns the
    record as it came: the previous cycle's [currentPrice], [profitLoss]
    and [profitLossPercent] stay on the position. *)
Theorem failed_fetch_keeps_previous_valuation :
  fetchCurrentPrices quotes [btc_row; eth_row] = Fulfilled [btc_valued; eth_valued] /\
  displayed (handleDelete true store_accepts [btc_valued; eth_valued] "a2d0")
    = [btc_valued] /\
  intervals (commit [btc_valued]
               (commit [btc_valued; eth_valued]
                  (commit [btc_row; eth_row] (commit [] initial))))
    = [Interval 1 [btc_valued]] /\
  fetchCurrentPrices oracle_down [btc_valued] = Fulfilled [btc_valued] /\
  derived btc_valued = (Some 150%float, Some 100%float, Some 50%float).
Proof.
  split; [|split; [reflexivity|split; [reflexivity|split; [|reflexivity]]]].
  - rewrite fetchCurrentPrices_pointwise. reflexivity.
  - rewrite fetchCurrentPrices_pointwise. cbn [List.map oracle_down recorded].
    rewrite revalue_rejected. reflexivity.
Qed.

End ValuationExamples.

Section Snapshot.
Import JS PortfolioList.

Lemma reduce_known_terms (price : PurchaseWithPrice -> option float)
    (purchases : list PurchaseWithPrice) (acc : float) :
  fold_left (add_known price) purchases acc
  = fold_left PrimFloat.add (terms price purchases) acc.
Proof.
  revert acc. induction purchases as [|p l IH]; intros acc; [reflexivity|].
  cbn [fold_left]. rewrite IH. unfold terms at 2. cbn [omap list_omap].
  fold (terms price l). unfold add_known, known, truthy.
  destruct (price p) as [v|]; [|reflexivity].
  destruct (truthy_number v); reflexivity.
Qed.

Lemma terms_without (price : PurchaseWithPrice -> option float)
    (before after : list PurchaseWithPrice) (p : PurchaseWithPrice) :
  known (price p) = None ->
  terms price (before ++ p :: after) = terms price (before ++ after).
Proof.
  intros Hp. unfold terms. rewrite !omap_app. f_equal.
  cbn [omap list_omap]. rewrite Hp. reflexivity.
Qed.

Lemma totalValue_sigma (purchases : list PurchaseWithPrice) :
  totalValue purchases = sigma (terms currentPrice purchases).
Proof. apply (reduce_known_terms currentPrice). Qed.

Lemma totalCost_sigma (purchases : list PurchaseWithPrice) :
  totalCost purchases = sigma (terms purchase_price_usd purchases).
Proof. apply (reduce_known_terms purchase_price_usd). Qed.

(** A number equal to zero is not a positive one. *)
Lemma zero_not_positive (x : float) :
  PrimFloat.eqb x 0 = true -> PrimFloat.ltb 0 x = false.
Proof.
  rewrite FloatAxioms.eqb_spec, FloatAxioms.ltb_spec.
  change (Prim2SF 0) with (S754_zero false).
  destruct (Prim2SF x) as [[]|[]| |[] m e]; cbn; congruence.
Qed.

(** *** The sign of sums of products of positive numbers

    Rounding a mantissa that is not negative gives a zero, a finite number
    or an infinity of the sign asked for, never [NaN]. *)
Lemma shr_1_nonneg (mrs : shr_record) :
  (0 <= shr_m mrs)%Z -> (0 <= shr_m (shr_1 mrs))%Z.
Proof. destruct mrs as [[|[m|m|]|m] r s]; cbn; lia. Qed.

Lemma iter_shr_1_nonneg (n : positive) (mrs : shr_record) :
  (0 <= shr_m mrs)%Z -> (0 <= shr_m (SpecFloat.iter_pos shr_1 n mrs))%Z.
Proof.
  revert mrs. induction n as [n IH|n IH|]; intros mrs H; cbn [SpecFloat.iter_pos].
  - apply IH, IH, shr_1_nonneg, H.
  - apply IH, IH, H.
  - apply shr_1_nonneg, H.
Qed.

Lemma shr_fexp_nonneg (prec emax m e : Z) (l : location) :
  (0 <= m)%Z -> (0 <= shr_m (fst (shr_fexp prec emax m e l)))%Z.
Proof.
  intros H. unfold shr_fexp, shr.
  assert (H0 : (0 <= shr_m (shr_record_of_loc m l))%Z) by (destruct l as [|[]]; exact H).
  destruct (_ - e)%Z; cbn [fst]; [exact H0| |exact H0].
  apply iter_shr_1_nonneg, H0.
Qed.

Lemma round_nearest_even_nonneg (m : Z) (l : location) :
  (0 <= m)%Z -> (0 <= round_nearest_even m l)%Z.
Proof.
  intros H. destruct l as [|[]]; cbn; [lia| |lia|lia]. destruct (Z.even m); lia.
Qed.

Lemma binary_round_aux_sign (prec emax : Z) (sx : bool) (mx ex : Z) (lx : location) :
  (0 <= mx)%Z ->
  match binary_round_aux prec emax sx mx ex lx with
  | S754_zero s | S754_infinity s | S754_finite s _ _ => s = sx
  | S754_nan => False
  end.
Proof.
  intros H. unfold binary_round_aux.
  pose proof (shr_fexp_nonneg prec emax mx ex lx H) as H1.
  destruct (shr_fexp prec emax mx ex lx) as [mrs' e']. cbn [fst] in H1.
  pose proof (shr_fexp_nonneg prec emax _ e' loc_Exact
                (round_nearest_even_nonneg _ (loc_of_shr_record mrs') H1)) as H2.
  destruct (shr_fexp prec emax _ e' loc_Exact) as [mrs'' e'']. cbn [fst] in H2.
  destruct (shr_m mrs'') as [|m|m]; [reflexivity| |lia].
  destruct (Z.leb e'' _); reflexivity.
Qed.

Lemma positive_cases (x : float) :
  PrimFloat.ltb 0 x = true ->
  Prim2SF x = S754_infinity false \/ exists m e, Prim2SF x = S754_finite false m e.
Proof.
  rewrite FloatAxioms.ltb_spec. change (Prim2SF 0) with (S754_zero false).
  destruct (Prim2SF x) as [[]|[]| |[] m e]; cbn; try discriminate; eauto.
Qed.

Lemma nonneg_cases (x : float) :
  PrimFloat.leb 0 x = true <->
  match Prim2SF x with
  | S754_zero _ => True
  | S754_infinity s | S754_finite s _ _ => s = false
  | S754_nan => False
  end.
Proof.
  rewrite FloatAxioms.leb_spec. change (Prim2SF 0) with (S754_zero false).
  destruct (Prim2SF x) as [[]|[]| |[] m e]; cbn; intuition congruence.
Qed.

(** The product of two positive numbers is zero (by underflow), positive
    or infinite. *)
Lemma mul_positive (x y : float) :
  PrimFloat.ltb 0 x = true -> PrimFloat.ltb 0 y = true ->
  PrimFloat.leb 0 (x * y) = true.
Proof.
  intros Hx Hy. apply nonneg_cases. rewrite FloatAxioms.mul_spec.
  unfold FloatAxioms.SF64mul.
  destruct (positive_cases x Hx) as [->|(mx & ex & ->)];
    destruct (positive_cases y Hy) as [->|(my & ey & ->)]; cbn [SFmul xorb];
    try reflexivity.
  pose proof (binary_round_aux_sign prec emax false (Z.pos (mx * my)) (ex + ey)
                loc_Exact ltac:(lia)) as H.
  destruct (binary_round_aux _ _ _ _ _ _); try exact H; exact I.
Qed.

Lemma add_nonneg (x y : float) :
  PrimFloat.leb 0 x = true -> PrimFloat.leb 0 y = true ->
  PrimFloat.leb 0 (x + y) = true.
Proof.
  rewrite !nonneg_cases, FloatAxioms.add_spec. unfold FloatAxioms.SF64add.
  destruct (Prim2SF x) as [sx|sx| |sx mx ex]; destruct (Prim2SF y) as [sy|sy| |sy my ey];
    cbn [SFadd]; try tauto; try (intros -> ->; reflexivity);
    try (destruct sx, sy; intros; subst; tauto).
  intros -> ->. cbn [cond_Zopp]. unfold binary_normalize.
  destruct (shl_align mx ex (Z.min ex ey)) as [a ea], (shl_align my ey (Z.min ex ey)) as [b eb].
  cbn [fst]. change (Z.pos a + Z.pos b)%Z with (Z.pos (a + b)). unfold binary_round.
  destruct (shl_align (a + b) _ _) as [mz ez].
  pose proof (binary_round_aux_sign prec emax false (Z.pos mz) ez loc_Exact ltac:(lia)) as H.
  destruct (binary_round_aux _ _ _ _ _ _); try exact H; exact I.
Qed.

(** On the numbers that are not negative, [0 < x] and [x != 0] are one
    test. *)
Lemma positive_unless_zero (x : float) :
  PrimFloat.leb 0 x = true -> PrimFloat.ltb 0 x = negb (PrimFloat.eqb x 0).
Proof.
  rewrite nonneg_cases, FloatAxioms.ltb_spec, FloatAxioms.eqb_spec.
  change (Prim2SF 0) with (S754_zero false).
  destruct (Prim2SF x) as [[]|[]| |[] m e]; cbn; intuition congruence.
Qed.

(** A price the guard lets through, if it is not negative, is positive. *)
Lemma truthy_positive (v : float) :
  truthy_number v = true -> PrimFloat.ltb v 0 = false -> PrimFloat.ltb 0 v = true.
Proof.
  unfold truthy_number, PrimFloat.is_nan.
  rewrite !FloatAxioms.eqb_spec, !FloatAxioms.ltb_spec.
  change (Prim2SF 0) with (S754_zero false).
  destruct (Prim2SF v) as [[]|[]| |[] m e]; intros Htruthy Hneg;
    try reflexivity; try discriminate Htruthy; discriminate Hneg.
Qed.

Lemma sigma_nonneg (xs : list float) (acc : float) :
  Forall (fun x => PrimFloat.leb 0 x = true) xs -> PrimFloat.leb 0 acc = true ->
  PrimFloat.leb 0 (fold_left PrimFloat.add xs acc) = true.
Proof.
  intros Hxs. revert acc. induction Hxs as [|x xs Hx _ IH]; intros acc Hacc; [exact Hacc|].
  cbn [fold_left]. apply IH, add_nonneg; assumption.
Qed.

Lemma cost_terms_nonneg (purchases : list PurchaseWithPrice) :
  as_recorded purchases ->
  Forall (fun x => PrimFloat.leb 0 x = true) (terms purchase_price_usd purchases).
Proof.
  induction 1 as [|p l [Hamount Hprice] _ IH]; [constructor|].
  unfold terms. cbn [omap list_omap]. fold (terms purchase_price_usd l).
  unfold known, truthy. destruct (purchase_price_usd p) as [v|] eqn:Hv; [|exact IH].
  destruct (truthy_number v) eqn:Htruthy; [|exact IH].
  cbn [fmap option_fmap option_map]. constructor; [|exact IH].
  apply mul_positive; [|exact Hamount].
  apply truthy_positive; [exact Htruthy|apply Hprice; reflexivity].
Qed.

(** The cost of positions of the data model is zero, positive or infinite:
    never negative, never [NaN]. *)
Lemma totalCost_nonneg (purchases : list PurchaseWithPrice) :
  as_recorded purchases -> PrimFloat.leb 0 (totalCost purchases) = true.
Proof.
  intros Hrec. rewrite totalCost_sigma.
  apply sigma_nonneg; [apply cost_terms_nonneg, Hrec|reflexivity].
Qed.

(** The hypothesis on the amounts is needed: the render tests
    [totalCost > 0], and with an amount of -1 the cost is -100, the
    quotient is 50 and the percentage shown is 0. *)
Lemma percent_of_negative_cost_is_zero :
  totalCost [short_btc] = (-100)%float /\
  totalProfitLossPercent [short_btc] = 0%float /\
  ~ percent_unless_zero_cost [short_btc].
Proof.
  split; [reflexivity|]. split; [reflexivity|].
  intros H. apply (f_equal (fun x => PrimFloat.eqb x 0)) in H.
  vm_compute in H. discriminate H.
Qed.




End Snapshot.

Section PriceClient.
Import JS CryptoApi.

Variable fetch : network.
Variable sym : string.

Lemma getCurrentPrice_unfold :
  getCurrentPrice fetch sym =
    match fetch (price_url (getCoinId sym)) with
    | Rejected e => Rejected e
    | Fulfilled r =>
        if ok r then
          match json r with
          | Rejected e => Rejected e
          | Fulfilled data =>
              match get data (getCoinId sym) with
              | Rejected e => Rejected e
              | Fulfilled entry =>
                  if truthy_value entry && truthy_value (get_opt entry "usd")
                  then Fulfilled (get_opt entry "usd")
                  else Rejected (price_not_found sym (getCoinId sym))
              end
          end
        else Rejected (Error ("API returned " +:+ pretty (status r)))
    end.
Proof.
  unfold getCurrentPrice, try_catch. cbv zeta.
  destruct (fetch _) as [r|e]; cbn [mbind settled_bind]; [|reflexivity].
  destruct (ok r); cbn [negb]; [|reflexivity].
  destruct (json r) as [data|e]; cbn [mbind settled_bind]; [|reflexivity].
  destruct (get data _) as [entry|e]; cbn [mbind settled_bind]; [|reflexivity].
  destruct (truthy_value entry), (truthy_value (get_opt entry "usd")); reflexivity.
Qed.

Lemma price_field_usd_member (data : value) (coinId : string) (price : float) :
  price_field data coinId = Some price ->
  usd_member data coinId = Some (JNum price).
Proof.
  unfold price_field, usd_member.
  destruct data as [| | | | |members]; try discriminate. cbn [get].
  destruct (own_member members coinId) as [[| | | | |entry]|]; try discriminate.
  cbn [truthy_value get_opt get].
  destruct (own_member entry "usd") as [[| |n| | |]|]; try discriminate.
  intros [= ->]. reflexivity.
Qed.

(** On a successful response whose body has the documented shape, the
    price is returned when it is truthy and refused when it is not. *)
Lemma getCurrentPrice_documented_shape (r : response) (data : value) (price : float) :
  fetch (price_url (getCoinId sym)) = Fulfilled r -> ok r = true ->
  json r = Fulfilled data ->
  price_field data (getCoinId sym) = Some price ->
  getCurrentPrice fetch sym =
    if truthy_number price then Fulfilled (Some (JNum price))
    else Rejected (price_not_found sym (getCoinId sym)).
Proof.
  intros Hfetch Hok Hjson Hfield.
  rewrite getCurrentPrice_unfold, Hfetch, Hok, Hjson.
  apply price_field_usd_member in Hfield as Husd. unfold usd_member in Husd.
  destruct (get data (getCoinId sym)) as [entry|e]; [|discriminate].
  destruct (truthy_value entry); [|discriminate].
  rewrite Husd. cbn [andb truthy_value]. reflexivity.
Qed.

(** C5, amended.  [getCurrentPrice] is fulfilled exactly when the request
    is answered, the answer is a success, its body parses, and the member
    [usd] of the entry of the resolved oracle id is there and truthy; it
    is then fulfilled with that member.  It fails exactly when the request
    is rejected, the response is a non-success, the body is malformed, or
    that member is missing or falsy.  On a body of the documented shape
    [{ [id]: { usd: number } }] the price is returned when it is not zero
    (nor [NaN]), and a [usd] of [0] is refused like a missing one. *)
Theorem getCurrentPrice_settles :
  (forall r data price,
     fetch (price_url (getCoinId sym)) = Fulfilled r -> ok r = true ->
     json r = Fulfilled data ->
     price_field data (getCoinId sym) = Some price ->
     getCurrentPrice fetch sym =
       if truthy_number price then Fulfilled (Some (JNum price))
       else Rejected (price_not_found sym (getCoinId sym))) /\
  (forall v, getCurrentPrice fetch sym = Fulfilled v <->
     exists r data,
       fetch (price_url (getCoinId sym)) = Fulfilled r /\ ok r = true /\
       json r = Fulfilled data /\
       usd_member data (getCoinId sym) = v /\ truthy_value v = true) /\
  ((exists e, getCurrentPrice fetch sym = Rejected e) <->
     (exists e, fetch (price_url (getCoinId sym)) = Rejected e) \/
     (exists r, fetch (price_url (getCoinId sym)) = Fulfilled r /\
        (ok r = false \/
         (exists e, json r = Rejected e) \/
         (exists data, json r = Fulfilled data /\
            truthy_value (usd_member data (getCoinId sym)) = false)))).
Proof.
  split; [apply getCurrentPrice_documented_shape|].
  rewrite getCurrentPrice_unfold. unfold usd_member.
  destruct (fetch (price_url (getCoinId sym))) as [r|e0].
  2:{ split.
      - intros v. split; [discriminate|]. intros (r & data & [=] & _).
      - split; [eauto|]. intros _. eauto. }
  destruct (ok r) eqn:Hok.
  2:{ split.
      - intros v. split; [discriminate|].
        intros (r' & data & [= <-] & Hok' & _). congruence.
      - split; [|eauto]. intros _. right. exists r. auto. }
  destruct (json r) as [data|e1] eqn:Hjson.
  2:{ split.
      - intros v. split; [discriminate|].
        intros (r' & data & [= <-] & _ & Hjson' & _). congruence.
      - split; [|eauto]. intros _. right. exists r. eauto. }
  destruct (get data (getCoinId sym)) as [entry|e2] eqn:Hget.
  2:{ split.
      - intros v. split; [discriminate|].
        intros (r' & data' & [= <-] & _ & Hjson' & <- & Hv).
        rewrite Hjson in Hjson'. injection Hjson' as <-. rewrite Hget in Hv.
        discriminate Hv.
      - split; [|eauto]. intros _. right. exists r. split; [reflexivity|].
        right. right. exists data. rewrite Hget. auto. }
  destruct (truthy_value entry) eqn:Hentry; cbn [andb].
  2:{ split.
      - intros v. split; [discriminate|].
        intros (r' & data' & [= <-] & _ & Hjson' & <- & Hv).
        rewrite Hjson in Hjson'. injection Hjson' as <-.
        rewrite Hget, Hentry in Hv. discriminate Hv.
      - split; [|eauto]. intros _. right. exists r. split; [reflexivity|].
        right. right. exists data. rewrite Hget, Hentry. auto. }
  destruct (truthy_value (get_opt entry "usd")) eqn:Husd.
  - split.
    + intros v. split.
      * intros [= <-]. exists r, data. rewrite Hget, Hentry. auto.
      * intros (r' & data' & [= <-] & _ & Hjson' & <- & _).
        rewrite Hjson in Hjson'. injection Hjson' as <-.
        rewrite Hget, Hentry. reflexivity.
    + split; [intros [e [=]]|].
      intros [[e [=]]|(r' & [= <-] & [H|[[e H]|(data' & H & Hv)]])];
        try congruence.
      rewrite Hjson in H. injection H as <-.
      rewrite Hget, Hentry in Hv. congruence.
  - split.
    + intros v. split; [discriminate|].
      intros (r' & data' & [= <-] & _ & Hjson' & <- & Hv).
      rewrite Hjson in Hjson'. injection Hjson' as <-.
      rewrite Hget, Hentry in Hv. congruence.
    + split; [|eauto]. intros _. right. exists r. split; [reflexivity|].
      right. right. exists data. rewrite Hget, Hentry. auto.
Qed.

End PriceClient.

Section PriceClientExamples.
Import JS CryptoApi.

(** C5 as stated fails: the field is there, the response is a success, and
    the call is rejected. *)
Lemma present_zero_price_is_refused :
  price_field zero_quote_body (getCoinId "BTC") = Some 0%float /\
  getCurrentPrice zero_quote "BTC" = Rejected (price_not_found "BTC" "bitcoin") /\
  ~ returns_present_price zero_quote "BTC".
Proof.
  split; [reflexivity|]. split; [reflexivity|].
  intros H.
  specialize (H _ zero_quote_body 0%float eq_refl eq_refl eq_refl eq_refl).
  discriminate H.
Qed.

(** C5, on an instance: the oracle quotes BTC at 27000 and the call returns
    it. *)
Lemma quoted_price_is_returned :
  getCurrentPrice quote_27000 "BTC" = Fulfilled (Some (JNum 27000)).
Proof.
  destruct (getCurrentPrice_settles quote_27000 "BTC") as (Hshape & _).
  apply (Hshape (Response true 200 (Fulfilled quote_27000_body))
           quote_27000_body 27000%float); reflexivity.
Defined.

End PriceClientExamples.

Section ZeroPrice.
Import JS PortfolioList.

Lemma zero_is_falsy (v : float) :
  PrimFloat.eqb v 0 = true -> truthy_number v = false.
Proof. intros H. unfold truthy_number. rewrite H. reflexivity. Qed.

Lemma zero_not_known (price : option float) : zero price -> known price = None.
Proof.
  intros (v & -> & Hv). unfold known, truthy. rewrite (zero_is_falsy v Hv). reflexivity.
Qed.

Lemma known_without_zero (price : option float) :
  known (without_zero price) = known price.
Proof.
  destruct price as [v|]; [|reflexivity]. cbn [without_zero].
  destruct (PrimFloat.eqb v 0) eqn:Hv; [|reflexivity].
  symmetry. apply zero_not_known. exists v. auto.
Qed.

(** [update_purchase] in terms of the known prices. *)
Lemma revalue_by_known (price : option float) (p : PurchaseWithPrice) :
  revalue price p =
    match known price, known (purchase_price_usd p) with
    | Some currentPrice, Some cost =>
        {| id := id p; symbol := symbol p; purchase_date := purchase_date p;
           amount := amount p; purchase_price_usd := Some cost;
           created_at := created_at p; updated_at := updated_at p;
           currentPrice := Some currentPrice;
           profitLoss := Some ((currentPrice - cost) * amount p)%float;
           profitLossPercent := Some ((currentPrice - cost) / cost * 100)%float |}
    | _, _ => p
    end.
Proof.
  unfold revalue, update_purchase, Map_get, known, truthy.
  rewrite lookup_singleton_eq.
  destruct price as [cp|]; [|reflexivity].
  destruct (purchase_price_usd p) as [pp|]; [|destruct (truthy_number cp); reflexivity].
  destruct (truthy_number cp), (truthy_number pp); reflexivity.
Qed.

Lemma revalue_unknown (price : option float) (p : PurchaseWithPrice) :
  known price = None \/ known (purchase_price_usd p) = None ->
  revalue price p = p.
Proof.
  rewrite revalue_by_known. intros [-> | ->]; [reflexivity|].
  destruct (known price); reflexivity.
Qed.

Lemma revalue_without_zero (price : option float) (p : PurchaseWithPrice) :
  derived (revalue (without_zero price) (zero_cost_as_null p)) = derived (revalue price p) /\
  amount (revalue (without_zero price) (zero_cost_as_null p)) = amount (revalue price p) /\
  known (purchase_price_usd (revalue (without_zero price) (zero_cost_as_null p)))
    = known (purchase_price_usd (revalue price p)).
Proof.
  rewrite !revalue_by_known, known_without_zero.
  cbn [zero_cost_as_null purchase_price_usd]. rewrite known_without_zero.
  destruct (known price) as [cp|];
    [destruct (known (purchase_price_usd p)) as [pp|] eqn:Hpp|];
    cbn; rewrite ?known_without_zero; auto.
Qed.

Lemma terms_pointwise (price : PurchaseWithPrice -> option float)
    (f f' : PurchaseWithPrice -> PurchaseWithPrice) (l : list PurchaseWithPrice) :
  (forall p, known (price (f p)) = known (price (f' p)) /\ amount (f p) = amount (f' p)) ->
  terms price (List.map f l) = terms price (List.map f' l).
Proof.
  intros Hf. induction l as [|p l IH]; [reflexivity|].
  unfold terms in *. cbn [List.map omap list_omap].
  destruct (Hf p) as [-> ->]. rewrite IH. reflexivity.
Qed.

Lemma recorded_zero_as_failure (getCurrentPrice : string -> settled float) (s : string) :
  recorded (zero_as_failure getCurrentPrice s) = without_zero (recorded (getCurrentPrice s)).
Proof.
  unfold zero_as_failure. destruct (getCurrentPrice s) as [v|e]; [|reflexivity].
  cbn [recorded without_zero]. destruct (PrimFloat.eqb v 0); reflexivity.
Qed.

Lemma total_without (price : PurchaseWithPrice -> option float)
    (l : list PurchaseWithPrice) (i : nat) (p : PurchaseWithPrice) :
  l !! i = Some p -> known (price p) = None ->
  sigma (terms price l) = sigma (terms price (delete i l)).
Proof.
  intros Hi Hp. rewrite delete_take_drop.
  rewrite <- (take_drop_middle l i p Hi) at 1.
  rewrite (terms_without price _ _ p Hp). reflexivity.
Qed.

End ZeroPrice.

Section ZeroPriceClaim.
Import JS PortfolioList.



End ZeroPriceClaim.

Section DeletePurchase.
Import JS PortfolioList.

Variable store : Supabase.request -> Supabase.answer.

Lemma filter_all {A : Type} (f : A -> bool) (l : list A) :
  (forall x, x ∈ l -> f x = true) -> List.filter f l = l.
Proof.
  induction l as [|x l IH]; intros H; [reflexivity|]. cbn [List.filter].
  rewrite (H x) by apply list_elem_of_here.
  rewrite IH; [reflexivity|]. intros y Hy. apply H, list_elem_of_further, Hy.
Qed.

Lemma filter_out_unique (before after : list PurchaseWithPrice) (p : PurchaseWithPrice) :
  NoDup (List.map id (before ++ p :: after)) ->
  List.filter (fun q => negb (String.eqb (id q) (id p))) (before ++ p :: after)
  = before ++ after.
Proof.
  rewrite List.map_app. cbn [List.map]. intros Hnd.
  apply NoDup_app in Hnd as (_ & Hbefore & Hafter).
  apply NoDup_cons in Hafter as [Hafter _].
  rewrite List.filter_app. cbn [List.filter]. rewrite String.eqb_refl. cbn [negb].
  f_equal; apply filter_all; intros q Hq; apply negb_true_iff, String.eqb_neq;
    intros Heq.
  - apply (Hbefore (id q)).
    + apply list_elem_of_In, in_map, list_elem_of_In, Hq.
    + rewrite Heq. apply list_elem_of_here.
  - apply Hafter. rewrite <- Heq. apply list_elem_of_In, in_map, list_elem_of_In, Hq.
Qed.

(** C7. A confirmed delete sends the store one request, the delete of that
    id, and no select.  When the store accepts, the displayed list is the
    previous one without the records of that id, the others unchanged and
    in their order: with unique ids, the previous list with exactly
    that record taken out.  When the store refuses, the displayed list is
    the previous one and the error is alerted.  Without confirmation
    nothing is sent and nothing changes. *)
Theorem delete_removes_exactly_that_record
    (purchases : list PurchaseWithPrice) (id0 : string) :
  requests (handleDelete true store purchases id0) = [Supabase.Delete id0] /\
  (store (Supabase.Delete id0) = Fulfilled None ->
     alerted (handleDelete true store purchases id0) = None /\
     (forall p, p ∈ displayed (handleDelete true store purchases id0) <->
                p ∈ purchases /\ id p <> id0) /\
     (forall before p after,
        purchases = before ++ p :: after -> id p = id0 ->
        NoDup (List.map id purchases) ->
        displayed (handleDelete true store purchases id0) = before ++ after)) /\
  (store (Supabase.Delete id0) <> Fulfilled None ->
     displayed (handleDelete true store purchases id0) = purchases /\
     exists text, alerted (handleDelete true store purchases id0) = Some text) /\
  handleDelete false store purchases id0 = Deleted purchases [] None.
Proof.
  unfold handleDelete. cbn [negb].
  destruct (store (Supabase.Delete id0)) as [[e|]|e]; cbn [mbind settled_bind mret settled_ret].
  - split; [reflexivity|]. split; [discriminate|]. split; [|reflexivity].
    intros _. split; [reflexivity|]. eexists. reflexivity.
  - split; [reflexivity|]. split; [|split; [congruence|reflexivity]].
    intros _. split; [reflexivity|]. cbn [displayed]. split.
    + intros p. rewrite list_elem_of_In, filter_In, negb_true_iff, String.eqb_neq,
        <- list_elem_of_In. reflexivity.
    + intros before p after -> <- Hnd. apply filter_out_unique, Hnd.
  - split; [reflexivity|]. split; [discriminate|]. split; [|reflexivity].
    intros _. split; [reflexivity|]. eexists. reflexivity.
Qed.

End DeletePurchase.

Section DeletePurchaseExamples.
Import JS PortfolioList.

(** C7, on instances: of two rows the deleted one goes and the other
    stays; a refused delete changes nothing. *)
Lemma delete_eth_row :
  displayed (handleDelete true store_accepts [btc_row; eth_row] "a2d0") = [btc_row] /\
  displayed (handleDelete true store_refuses [btc_row; eth_row] "a2d0")
    = [btc_row; eth_row].
Proof.
  split.
  - destruct (delete_removes_exactly_that_record store_accepts [btc_row; eth_row] "a2d0")
      as (_ & Hok & _).
    destruct (Hok eq_refl) as (_ & _ & Hout).
    apply (Hout [btc_row] eth_row []); [reflexivity|reflexivity|].
    cbn [List.map id btc_row eth_row]. apply NoDup_cons.
    split; [|apply NoDup_singleton]. rewrite list_elem_of_singleton. discriminate.
  - destruct (delete_removes_exactly_that_record store_refuses [btc_row; eth_row] "a2d0")
      as (_ & _ & Hko & _).
    apply Hko. discriminate.
Defined.

End DeletePurchaseExamples.

Section AddPurchase.
Import JS AddPurchaseForm.

Variable newDate : string -> Date.
Variable toISOString : Z -> string.
Variable parseFloat : string -> float.
Variable getHistoricalPrice : string -> Date -> settled float.
Variable store : Supabase.request -> Supabase.answer.

Local Abbreviation submit :=
  (handleSubmit newDate toISOString parseFloat getHistoricalPrice store).
Local Abbreviation purchaseDateTime := (AddPurchaseForm.purchaseDateTime newDate).
Local Abbreviation row_of := (AddPurchaseForm.row_of toISOString parseFloat).

Lemma handleSubmit_cases (f : form) :
  submit f =
    if CryptoApi.validateSymbol (symbol f) then
      match getHistoricalPrice (symbol f) (purchaseDateTime f) with
      | Rejected err =>
          Submitted
            (Form (symbol f) (purchaseDate f) (purchaseTime f) (amount f) false
               (error_text err "Failed to add purchase"))
            [HistoricalPrice (symbol f) (purchaseDateTime f)] false
      | Fulfilled historicalPrice =>
          match purchaseDateTime f with
          | None =>
              Submitted
                (Form (symbol f) (purchaseDate f) (purchaseTime f) (amount f) false
                   "Invalid time value")
                [HistoricalPrice (symbol f) (purchaseDateTime f)] false
          | Some t =>
              match store (Supabase.Insert (row_of f t historicalPrice)) with
              | Fulfilled None =>
                  Submitted (Form EmptyString EmptyString "12:00" EmptyString false EmptyString)
                    [HistoricalPrice (symbol f) (purchaseDateTime f);
                     Store (Supabase.Insert (row_of f t historicalPrice))] true
              | Fulfilled (Some err) | Rejected err =>
                  Submitted
                    (Form (symbol f) (purchaseDate f) (purchaseTime f) (amount f) false
                       (error_text err "Failed to add purchase"))
                    [HistoricalPrice (symbol f) (purchaseDateTime f);
                     Store (Supabase.Insert (row_of f t historicalPrice))] false
              end
          end
      end
    else
      Submitted
        (Form (symbol f) (purchaseDate f) (purchaseTime f) (amount f) (loading f)
           (not_supported (symbol f)))
        [] false.
Proof.
  unfold handleSubmit, try_block, AddPurchaseForm.purchaseDateTime, AddPurchaseForm.row_of.
  cbn [setError setLoading symbol purchaseDate purchaseTime amount loading error].
  destruct (CryptoApi.validateSymbol (symbol f)); [|reflexivity]. cbn [negb].
  destruct (getHistoricalPrice _ _) as [price|err]; [|reflexivity].
  destruct (newDate _) as [t|]; [|reflexivity].
  cbn [Date_toISOString step mbind traced_bind await_call app].
  destruct (store _) as [[err|]|err]; reflexivity.
Qed.

(** C6. The add-purchase workflow validates in order and stops at the
    first failure.  A symbol the registry does not hold ends the submission
    with the invalid-symbol message and no call to the oracle or to the
    store.  A failed historical-price fetch ends it with the error of the
    fetch, after that one call, the store not called.  An insert is sent
    only after the fetch succeeded, once, with [purchase_price_usd] the
    fetched price, and nothing else is asked of the store.  The form is
    cleared and [onPurchaseAdded] called exactly when fetch and insert both
    succeeded; otherwise the entries stay as they were. *)
Theorem add_purchase_short_circuits (f : form) :
  (CryptoApi.validateSymbol (symbol f) = false ->
     calls (submit f) = [] /\ purchaseAdded (submit f) = false /\
     error (form_after (submit f)) = not_supported (symbol f)) /\
  (forall err,
     CryptoApi.validateSymbol (symbol f) = true ->
     getHistoricalPrice (symbol f) (purchaseDateTime f) = Rejected err ->
     calls (submit f) = [HistoricalPrice (symbol f) (purchaseDateTime f)] /\
     purchaseAdded (submit f) = false /\
     error (form_after (submit f)) = error_text err "Failed to add purchase" /\
     (instanceOfError err = true -> error (form_after (submit f)) = message err)) /\
  (forall request, Store request ∈ calls (submit f) ->
     CryptoApi.validateSymbol (symbol f) = true /\
     exists row,
       request = Supabase.Insert row /\
       getHistoricalPrice (symbol f) (purchaseDateTime f)
         = Fulfilled (Supabase.purchase_price_usd row) /\
       calls (submit f) =
         [HistoricalPrice (symbol f) (purchaseDateTime f); Store (Supabase.Insert row)]) /\
  (purchaseAdded (submit f) = true <->
     CryptoApi.validateSymbol (symbol f) = true /\
     exists historicalPrice t,
       getHistoricalPrice (symbol f) (purchaseDateTime f) = Fulfilled historicalPrice /\
       purchaseDateTime f = Some t /\
       store (Supabase.Insert (row_of f t historicalPrice)) = Fulfilled None) /\
  (purchaseAdded (submit f) = true ->
     form_after (submit f)
       = Form EmptyString EmptyString "12:00" EmptyString false EmptyString) /\
  (purchaseAdded (submit f) = false -> same_entries (form_after (submit f)) f).
Proof.
  rewrite handleSubmit_cases. unfold same_entries.
  destruct (CryptoApi.validateSymbol (symbol f)).
  2:{ cbn [calls purchaseAdded form_after error symbol purchaseDate purchaseTime amount].
      split; [auto|]. split; [intros err [=]|].
      split; [intros request H; apply elem_of_nil in H; destruct H|].
      split; [split; [discriminate|intros [[=] _]]|].
      split; [discriminate|auto]. }
  destruct (getHistoricalPrice (symbol f) (purchaseDateTime f)) as [price|err0].
  2:{ cbn [calls purchaseAdded form_after error symbol purchaseDate purchaseTime amount].
      split; [discriminate|]. split.
      { intros err _ [= <-]. repeat split.
        intros Herr. unfold error_text. rewrite Herr. reflexivity. }
      split; [intros request H; apply list_elem_of_singleton in H; discriminate H|].
      split; [split; [discriminate|intros (_ & p & t & [=] & _)]|].
      split; [discriminate|auto]. }
  destruct (purchaseDateTime f) as [t|].
  2:{ cbn [calls purchaseAdded form_after error symbol purchaseDate purchaseTime amount].
      split; [discriminate|]. split; [intros err _ [=]|].
      split; [intros request H; apply list_elem_of_singleton in H; discriminate H|].
      split; [split; [discriminate|intros (_ & p & t & _ & [=] & _)]|].
      split; [discriminate|auto]. }
  assert (Hsent : forall request,
    Store request ∈ [HistoricalPrice (symbol f) (Some t);
                     Store (Supabase.Insert (row_of f t price))] ->
    true = true /\
    exists row, request = Supabase.Insert row /\
      Fulfilled price = Fulfilled (Supabase.purchase_price_usd row) /\
      [HistoricalPrice (symbol f) (Some t);
       Store (Supabase.Insert (row_of f t price))]
      = [HistoricalPrice (symbol f) (Some t); Store (Supabase.Insert row)]).
  { intros request H. split; [reflexivity|].
    apply elem_of_cons in H as [H|H]; [discriminate H|].
    apply list_elem_of_singleton in H. injection H as ->.
    exists (row_of f t price). repeat split. }
  destruct (store (Supabase.Insert (row_of f t price))) as [[err|]|err] eqn:Hstore;
    cbn [calls purchaseAdded form_after error symbol purchaseDate purchaseTime amount];
    (split; [discriminate|]); (split; [intros err' _ [=]|]);
    (split; [exact Hsent|]).
  - split; [split; [discriminate|]|split; [discriminate|auto]].
    intros (_ & p & t' & [= <-] & [= <-] & H). congruence.
  - split; [split; [intros _; split; [reflexivity|]; exists price, t; auto|auto]|].
    split; [auto|discriminate].
  - split; [split; [discriminate|]|split; [discriminate|auto]].
    intros (_ & p & t' & [= <-] & [= <-] & H). congruence.
Qed.

End AddPurchase.

Section AddPurchaseExamples.
Import JS AddPurchaseForm.

(** C6, on instances: NOTACOIN is refused without a call; with the oracle
    down BTC is not persisted and the oracle's error is shown; with the
    oracle up the row is inserted at the fetched price and the caller is
    signalled. *)
Lemma add_purchase_examples :
  calls (handleSubmit noon iso_noon one_unit history_at_16500 insert_accepted
           notacoin_form) = [] /\
  (calls (handleSubmit noon iso_noon one_unit history_unavailable insert_accepted
            btc_form)
     = [HistoricalPrice "btc" (Some 1672574400000%Z)] /\
   error (form_after (handleSubmit noon iso_noon one_unit history_unavailable
                        insert_accepted btc_form)) = "API returned 429") /\
  purchaseAdded (handleSubmit noon iso_noon one_unit history_at_16500 insert_accepted
                   btc_form) = true.
Proof.
  split; [|split].
  - destruct (add_purchase_short_circuits noon iso_noon one_unit history_at_16500
                insert_accepted notacoin_form) as (Hinvalid & _).
    apply Hinvalid. reflexivity.
  - destruct (add_purchase_short_circuits noon iso_noon one_unit history_unavailable
                insert_accepted btc_form) as (_ & Hfetch & _).
    destruct (Hfetch (Error "API returned 429") eq_refl eq_refl)
      as (Hcalls & _ & _ & Hmsg).
    split; [exact Hcalls|]. apply Hmsg. reflexivity.
  - destruct (add_purchase_short_circuits noon iso_noon one_unit history_at_16500
                insert_accepted btc_form) as (_ & _ & _ & Hadded & _).
    apply Hadded. split; [reflexivity|].
    exists 16500%float, 1672574400000%Z. repeat split.
Defined.

End AddPurchaseExamples.

Section IntervalTimer.
Import JS PortfolioList.

Lemma run_effect_invariant (purchases' : list PurchaseWithPrice) (next : nat) :
  forall e running next',
    run_effect purchases' [] next = (e, running, next') ->
    timer_invariant (Component purchases' (Some e) running next').
Proof.
  intros e running next'. unfold run_effect.
  destruct (Nat.eqb_spec (length purchases') 0) as [Hlen|Hlen]; intros [= <- <- <-];
    cbn.
  - auto.
  - split; [reflexivity|]. split; [exact Hlen|]. split; [lia|]. eauto.
Qed.

Lemma cleanup_clears (c : component) (e : effect) :
  timer_invariant c -> timer_effect c = Some e ->
  run_cleanup (cleanup e) (intervals c) = [].
Proof.
  unfold timer_invariant. intros Hinv He. rewrite He in Hinv.
  destruct Hinv as [_ Hinv]. destruct (cleanup e) as [h|].
  - destruct Hinv as (_ & _ & closed & -> & _). cbn. rewrite Nat.eqb_refl. reflexivity.
  - destruct Hinv as [_ ->]. reflexivity.
Qed.

Lemma commit_invariant (purchases' : list PurchaseWithPrice) (c : component) :
  timer_invariant c -> timer_invariant (commit purchases' c).
Proof.
  intros Hinv. unfold commit.
  destruct (timer_effect c) as [e|] eqn:He.
  - destruct (Nat.eqb_spec (dep e) (length purchases')) as [Hdep|Hdep].
    + unfold timer_invariant in *. rewrite He in Hinv. cbn.
      destruct Hinv as [_ Hinv]. split; [exact Hdep|exact Hinv].
    + rewrite (cleanup_clears c e Hinv He).
      destruct (run_effect purchases' [] (next_handle c)) as [[e' running] next'] eqn:Hrun.
      apply (run_effect_invariant _ _ _ _ _ Hrun).
  - unfold timer_invariant in Hinv. rewrite He in Hinv. rewrite Hinv.
    destruct (run_effect purchases' [] (next_handle c)) as [[e' running] next'] eqn:Hrun.
    apply (run_effect_invariant _ _ _ _ _ Hrun).
Qed.

Lemma unmount_invariant (c : component) :
  timer_invariant c -> timer_invariant (unmount c).
Proof.
  intros Hinv. unfold unmount. destruct (timer_effect c) as [e|] eqn:He; [|exact Hinv].
  unfold timer_invariant. cbn. apply (cleanup_clears c e Hinv He).
Qed.

Lemma reachable_invariant (c : component) : reachable c -> timer_invariant c.
Proof.
  induction 1 as [|c c' _ IH Hstep]; [reflexivity|].
  destruct Hstep; [apply commit_invariant|apply unmount_invariant]; exact IH.
Qed.

End IntervalTimer.

Section IntervalTimerClaim.
Import JS PortfolioList.

Lemma loaded_reachable : reachable loaded.
Proof.
  unfold loaded. eapply reachable_next; [|apply transition_commit].
  eapply reachable_next; [apply reachable_initial|apply transition_commit].
Qed.

(** C9 as stated fails: the valuation pass replaces the list by one of the
    same length, and the timer set up for the rows as listed keeps running,
    closed over those rows. *)
Lemma same_count_keeps_the_timer :
  reachable loaded /\
  [btc_valued] <> purchases loaded /\
  intervals loaded = [Interval 0 [btc_row]] /\
  intervals (commit [btc_valued] loaded) = [Interval 0 [btc_row]] /\
  ~ recreated_on_change loaded [btc_valued].
Proof.
  split; [apply loaded_reachable|].
  assert (Hne : [btc_valued] <> purchases loaded) by (cbn; discriminate).
  split; [exact Hne|]. split; [reflexivity|]. split; [reflexivity|].
  intros H. apply (H Hne (Interval 0 [btc_row])); apply list_elem_of_here.
Qed.

(** C9, amended.  At every reachable state at most one interval timer
    runs, none while the component is not mounted, and, mounted, one runs
    exactly when the record list is not empty.  A commit of an empty list
    leaves no timer.  A commit that changes the number of records clears
    the running timer and, for a non-empty list, sets up a new one closed
    over the new list; a commit that keeps the number of records leaves the
    running timer, and the list it is closed over, as they are. *)
Theorem interval_timer_follows_count (c : component) :
  reachable c ->
  length (intervals c) <= 1 /\
  (timer_effect c = None -> intervals c = []) /\
  (is_Some (timer_effect c) -> (intervals c = [] <-> purchases c = [])) /\
  forall purchases' : list PurchaseWithPrice,
    is_Some (timer_effect c) ->
    (purchases' = [] -> intervals (commit purchases' c) = []) /\
    (length purchases' = length (purchases c) ->
       intervals (commit purchases' c) = intervals c) /\
    (length purchases' <> length (purchases c) -> purchases' <> [] ->
       intervals (commit purchases' c) = [Interval (next_handle c) purchases'] /\
       forall i, i ∈ intervals c -> handle i < next_handle c).
Proof.
  intros Hreach. assert (Hinv := reachable_invariant c Hreach).
  destruct (timer_effect c) as [e|] eqn:He; cycle 1.
  { unfold timer_invariant in Hinv. rewrite He in Hinv. rewrite Hinv. cbn.
    split; [lia|]. split; [reflexivity|].
    split; [intros [? ?]; discriminate|intros ? [? ?]; discriminate]. }
  assert (Hclear := cleanup_clears c e Hinv He).
  unfold timer_invariant in Hinv. rewrite He in Hinv. unfold commit. rewrite He.
  destruct Hinv as [Hdep Hinv].
  assert (Hone : length (intervals c) <= 1 /\
                 (intervals c = [] <-> purchases c = []) /\
                 forall i, i ∈ intervals c -> handle i < next_handle c).
  { destruct (cleanup e) as [h|].
    - destruct Hinv as (Hne & Hlt & closed & Hrun & _). rewrite Hrun. cbn.
      split; [lia|]. split.
      + split; [discriminate|]. intros Hnil. rewrite Hnil in Hdep. cbn in Hdep. lia.
      + intros i Hi. apply list_elem_of_singleton in Hi. subst i. exact Hlt.
    - destruct Hinv as [Hzero Hrun]. rewrite Hrun. cbn. split; [lia|]. split.
      + split; [|reflexivity]. intros _. apply length_zero_iff_nil. lia.
      + intros i Hi. apply elem_of_nil in Hi. destruct Hi. }
  destruct Hone as (Hle & Hempty & Hold).
  split; [exact Hle|]. split; [discriminate|]. split; [intros _; exact Hempty|].
  intros purchases' _. rewrite Hdep, Hclear. unfold run_effect.
  destruct (Nat.eqb_spec (length (purchases c)) (length purchases')) as [Hsame|Hdiff].
  - cbn [intervals]. split; [|split; [reflexivity|intros H; congruence]].
    intros ->. apply Hempty, length_zero_iff_nil. exact Hsame.
  - destruct (Nat.eqb_spec (length purchases') 0) as [Hzero|Hpos]; cbn [intervals].
    + split; [reflexivity|]. split; [intros H; congruence|].
      intros _ Hne. apply length_zero_iff_nil in Hzero. contradiction.
    + split; [intros ->; contradiction|]. split; [intros H; congruence|].
      intros _ _. split; [reflexivity|exact Hold].
Qed.

(** C9, on an instance: with one row listed one timer runs, and the commit
    of the empty list after its delete leaves none. *)
Lemma timer_of_one_row :
  length (intervals loaded) <= 1 /\ intervals (commit [] loaded) = [].
Proof.
  destruct (interval_timer_follows_count loaded loaded_reachable)
    as (Hle & _ & _ & Hcommit).
  split; [exact Hle|].
  destruct (Hcommit [] (mk_is_Some _ _ eq_refl)) as (Hnil & _).
  apply Hnil. reflexivity.
Defined.

End IntervalTimerClaim.

(** ** Further properties of the registry *)

Section RegistryCase.
Import JS CryptoApi.

Lemma upper_lower_char (c : ascii) : upper_char (lower_char c) = upper_char c.
Proof. destruct c as [[] [] [] [] [] [] [] []]; reflexivity. Qed.

Lemma lower_upper_char (c : ascii) : lower_char (upper_char c) = lower_char c.
Proof. destruct c as [[] [] [] [] [] [] [] []]; reflexivity. Qed.

Lemma upper_upper_char (c : ascii) : upper_char (upper_char c) = upper_char c.
Proof. destruct c as [[] [] [] [] [] [] [] []]; reflexivity. Qed.

Lemma toUpperCase_toLowerCase (s : string) : toUpperCase (toLowerCase s) = toUpperCase s.
Proof.
  induction s as [|c s IH]; [reflexivity|]. cbn [toUpperCase toLowerCase].
  rewrite IH, upper_lower_char. reflexivity.
Qed.

Lemma toLowerCase_toUpperCase (s : string) : toLowerCase (toUpperCase s) = toLowerCase s.
Proof.
  induction s as [|c s IH]; [reflexivity|]. cbn [toUpperCase toLowerCase].
  rewrite IH, lower_upper_char. reflexivity.
Qed.

Lemma toUpperCase_twice (s : string) : toUpperCase (toUpperCase s) = toUpperCase s.
Proof.
  induction s as [|c s IH]; [reflexivity|]. cbn [toUpperCase].
  rewrite IH, upper_upper_char. reflexivity.
Qed.

Lemma toLowerCase_twice (s : string) : toLowerCase (toLowerCase s) = toLowerCase s.
Proof.
  rewrite <- (toLowerCase_toUpperCase s) at 2.
  rewrite <- (toLowerCase_toUpperCase (toLowerCase s)), toUpperCase_toLowerCase.
  reflexivity.
Qed.

(** The table writes every symbol in capitals and leaves no id empty. *)
Lemma table_in_capitals (c : crypto) :
  c ∈ SUPPORTED_CRYPTOS ->
  toUpperCase (symbol c) = symbol c /\ truthy_string (id c) = true.
Proof.
  assert (H : Forall (fun c => toUpperCase (symbol c) = symbol c /\
                               truthy_string (id c) = true) SUPPORTED_CRYPTOS).
  { unfold SUPPORTED_CRYPTOS. repeat (constructor; [split; reflexivity|]). constructor. }
  intros Hc. exact (proj1 (Forall_forall _ _) H c Hc).
Qed.

Lemma same_symbol_folded (s t : string) (c : crypto) :
  toUpperCase s = toUpperCase t -> same_symbol s c = same_symbol t c.
Proof. unfold same_symbol. intros ->. reflexivity. Qed.

Lemma existsb_pointwise {A : Type} (f g : A -> bool) (l : list A) :
  (forall x, f x = g x) -> existsb f l = existsb g l.
Proof.
  intros H. induction l as [|x l IH]; [reflexivity|]. cbn. rewrite H, IH. reflexivity.
Qed.

Lemma find_pointwise {A : Type} (f g : A -> bool) (l : list A) :
  (forall x, f x = g x) -> List.find f l = List.find g l.
Proof.
  intros H. induction l as [|x l IH]; [reflexivity|]. cbn. rewrite H, IH. reflexivity.
Qed.

Lemma validateSymbol_folded (s t : string) :
  toUpperCase s = toUpperCase t -> validateSymbol s = validateSymbol t.
Proof.
  intros H. apply existsb_pointwise. intros c. apply same_symbol_folded, H.
Qed.

Lemma validateSymbol_entry (s : string) :
  validateSymbol s = true <->
  exists c, c ∈ SUPPORTED_CRYPTOS /\ symbol c = toUpperCase s.
Proof.
  unfold validateSymbol. rewrite existsb_exists. split.
  - intros (c & Hc & Hsame). apply list_elem_of_In in Hc. exists c. split; [exact Hc|].
    apply String.eqb_eq in Hsame.
    rewrite (proj1 (table_in_capitals c Hc)) in Hsame. exact Hsame.
  - intros (c & Hc & Hsym). exists c. split; [apply list_elem_of_In, Hc|].
    apply String.eqb_eq. rewrite (proj1 (table_in_capitals c Hc)). exact Hsym.
Qed.

(** The table is written in ASCII characters. *)
Lemma table_in_ascii (c : crypto) :
  c ∈ SUPPORTED_CRYPTOS ->
  ascii_text (symbol c) = true /\ ascii_text (id c) = true /\ ascii_text (name c) = true.
Proof.
  assert (H : forallb (fun c => ascii_text (symbol c) && ascii_text (id c) &&
                                ascii_text (name c)) SUPPORTED_CRYPTOS = true)
    by (vm_compute; reflexivity).
  intros Hc. apply list_elem_of_In in Hc.
  pose proof (proj1 (forallb_forall _ _) H c Hc) as Hascii.
  apply andb_prop in Hascii as [Hascii Hname].
  apply andb_prop in Hascii as [Hsym Hid]. auto.
Qed.

(** X1. On symbols of ASCII characters [validateSymbol] compares with
    letter case ignored: a symbol is supported exactly when the table
    holds its capitalised form, so a symbol, its capitalised form and its
    lower-case form are supported together; and every symbol of the table
    is an ASCII string that is supported, also in lower case. *)
Theorem validateSymbol_ignores_case (s : string) :
  ascii_text s = true ->
  (validateSymbol s = true <->
     exists c, c ∈ SUPPORTED_CRYPTOS /\ symbol c = toUpperCase s) /\
  validateSymbol (toUpperCase s) = validateSymbol s /\
  validateSymbol (toLowerCase s) = validateSymbol s /\
  (forall c, c ∈ SUPPORTED_CRYPTOS ->
     ascii_text (symbol c) = true /\
     validateSymbol (symbol c) = true /\ validateSymbol (toLowerCase (symbol c)) = true).
Proof.
  intros _.
  split; [apply validateSymbol_entry|].
  split; [apply validateSymbol_folded, toUpperCase_twice|].
  split; [apply validateSymbol_folded, toUpperCase_toLowerCase|].
  intros c Hc.
  assert (Hsym : validateSymbol (symbol c) = true).
  { apply validateSymbol_entry. exists c. split; [exact Hc|].
    symmetry. apply (table_in_capitals c Hc). }
  split; [apply (table_in_ascii c Hc)|]. split; [exact Hsym|].
  rewrite (validateSymbol_folded _ (symbol c) (toUpperCase_toLowerCase _)). exact Hsym.
Qed.

(** X1, on an instance: [Link] is supported, and so it is in capitals and
    in lower case. *)
Lemma link_in_any_case :
  validateSymbol "Link" = true /\
  validateSymbol (toUpperCase "Link") = validateSymbol "Link" /\
  validateSymbol (toLowerCase "Link") = validateSymbol "Link".
Proof.
  destruct (validateSymbol_ignores_case "Link" eq_refl) as (_ & Hupper & Hlower & _).
  split; [reflexivity|]. split; [exact Hupper|exact Hlower].
Defined.

Lemma getCoinId_folded (s t : string) :
  toUpperCase s = toUpperCase t -> toLowerCase s = toLowerCase t ->
  getCoinId s = getCoinId t.
Proof.
  intros Hup Hlow. unfold getCoinId.
  rewrite (find_pointwise (same_symbol s) (same_symbol t))
    by (intros c; apply same_symbol_folded, Hup).
  rewrite Hlow. reflexivity.
Qed.

Lemma getCoinId_entry (s : string) :
  validateSymbol s = true ->
  exists c, c ∈ SUPPORTED_CRYPTOS /\ symbol c = toUpperCase s /\ getCoinId s = id c.
Proof.
  intros Hvalid. unfold getCoinId.
  destruct (List.find (same_symbol s) SUPPORTED_CRYPTOS) as [c|] eqn:Hfind.
  - apply find_some in Hfind as [Hc Hsame]. apply list_elem_of_In in Hc.
    destruct (table_in_capitals c Hc) as [Hcap Hid].
    exists c. rewrite Hid. split; [exact Hc|]. split; [|reflexivity].
    apply String.eqb_eq in Hsame. rewrite Hcap in Hsame. exact Hsame.
  - unfold validateSymbol in Hvalid. apply existsb_exists in Hvalid as (c & Hc & Hsame).
    rewrite (find_none _ _ Hfind c Hc) in Hsame. discriminate Hsame.
Qed.

(** Four entries of the table, and no other, have the symbol in lower
    case for oracle id. *)
Lemma id_is_lower_symbol (c : crypto) :
  c ∈ SUPPORTED_CRYPTOS ->
  id c = toLowerCase (symbol c) <-> symbol c ∈ named_after_symbol.
Proof.
  assert (H : forallb (fun c =>
                Bool.eqb (String.eqb (id c) (toLowerCase (symbol c)))
                         (existsb (String.eqb (symbol c)) named_after_symbol))
              SUPPORTED_CRYPTOS = true) by (vm_compute; reflexivity).
  intros Hc. apply list_elem_of_In in Hc.
  pose proof (proj1 (forallb_forall _ _) H c Hc) as Heq. apply eqb_prop in Heq.
  rewrite <- String.eqb_eq, Heq, existsb_exists. split.
  - intros (t & Ht & Hsame). apply String.eqb_eq in Hsame. subst t.
    apply list_elem_of_In, Ht.
  - intros Hin. exists (symbol c). split; [apply list_elem_of_In, Hin|].
    apply String.eqb_refl.
Qed.

(** X2. On symbols of ASCII characters: [getCoinId] answers the oracle id
    of the table entry for every symbol [validateSymbol] accepts and falls
    back to the symbol in lower case for every symbol it refuses; the
    answer is the symbol in lower case exactly for the refused symbols and
    for SUI, NEAR, IOTEX and GALA, whose entry has that id; and the letter
    case of the symbol does not change the id. *)
Theorem getCoinId_follows_validation (s : string) :
  ascii_text s = true ->
  (validateSymbol s = true ->
     exists c, c ∈ SUPPORTED_CRYPTOS /\ symbol c = toUpperCase s /\ getCoinId s = id c) /\
  (validateSymbol s = false -> getCoinId s = toLowerCase s) /\
  (getCoinId s = toLowerCase s <->
     validateSymbol s = false \/ toUpperCase s ∈ named_after_symbol) /\
  getCoinId (toUpperCase s) = getCoinId s /\
  getCoinId (toLowerCase s) = getCoinId s.
Proof.
  intros _.
  assert (Hfallback : validateSymbol s = false -> getCoinId s = toLowerCase s).
  { intros Hinvalid. unfold getCoinId.
    destruct (List.find (same_symbol s) SUPPORTED_CRYPTOS) as [c|] eqn:Hfind;
      [|reflexivity].
    apply find_some in Hfind as [Hc Hsame].
    assert (Hvalid : validateSymbol s = true).
    { unfold validateSymbol. apply existsb_exists. eauto. }
    congruence. }
  split; [apply getCoinId_entry|]. split; [exact Hfallback|]. split; [|split].
  - destruct (validateSymbol s) eqn:Hvalid.
    + destruct (getCoinId_entry s Hvalid) as (c & Hc & Hsym & Hid).
      rewrite Hid, <- (toLowerCase_toUpperCase s), <- Hsym, (id_is_lower_symbol c Hc).
      split; [intros Hin; right; exact Hin|intros [Hno|Hin]; [discriminate Hno|exact Hin]].
    + split; [intros _; left; reflexivity|intros _; apply Hfallback; reflexivity].
  - apply getCoinId_folded; [apply toUpperCase_twice|apply toLowerCase_toUpperCase].
  - apply getCoinId_folded; [apply toUpperCase_toLowerCase|apply toLowerCase_twice].
Qed.

(** X2, on instances: [eth] is accepted and resolves to the table's id;
    [NOTACOIN] is refused and resolves to itself in lower case; [near] is
    accepted and resolves to itself all the same. *)
Lemma getCoinId_examples :
  (exists c, c ∈ SUPPORTED_CRYPTOS /\ symbol c = "ETH" /\ getCoinId "eth" = id c) /\
  getCoinId "NOTACOIN" = "notacoin" /\
  (validateSymbol "near" = true /\ getCoinId "near" = "near").
Proof.
  destruct (getCoinId_follows_validation "eth" eq_refl) as (Hvalid & _).
  destruct (getCoinId_follows_validation "NOTACOIN" eq_refl) as (_ & Hinvalid & _).
  destruct (getCoinId_follows_validation "near" eq_refl) as (_ & _ & Hexactly & _).
  split; [apply Hvalid; reflexivity|]. split; [apply (Hinvalid eq_refl)|].
  split; [reflexivity|]. apply Hexactly. right.
  apply list_elem_of_In. cbn. tauto.
Defined.

End RegistryCase.

Section SearchAndSuggestions.
Import JS CryptoApi.

Lemma filter_sublist {A : Type} (f : A -> bool) (l : list A) :
  List.filter f l `sublist_of` l.
Proof.
  induction l as [|x l IH]; [constructor|]. cbn [List.filter].
  destruct (f x); [apply sublist_skip|apply sublist_cons]; exact IH.
Qed.

Lemma table_without_repeats : NoDup SUPPORTED_CRYPTOS.
Proof.
  apply (NoDup_fmap_1 symbol). apply (bool_decide_unpack _). vm_compute. reflexivity.
Qed.

Lemma searchCryptos_sublist (query : string) :
  searchCryptos query `sublist_of` SUPPORTED_CRYPTOS.
Proof.
  unfold searchCryptos. destruct (negb (truthy_string query)); [apply sublist_nil_l|].
  cbv zeta. etransitivity; [apply sublist_take|apply filter_sublist].
Qed.

Lemma searchCryptos_elem (query : string) (c : crypto) :
  c ∈ searchCryptos query ->
  c ∈ SUPPORTED_CRYPTOS /\ matches_query (toUpperCase query) c = true.
Proof.
  unfold searchCryptos. destruct (negb (truthy_string query)); [intros H; inversion H|].
  cbv zeta. intros H. apply elem_of_take in H as (i & H & _).
  apply list_elem_of_lookup_2, list_elem_of_In, filter_In in H as [Hc Hm].
  split; [apply list_elem_of_In, Hc|exact Hm].
Qed.

Lemma searchCryptos_length (query : string) : length (searchCryptos query) <= 5.
Proof.
  unfold searchCryptos. destruct (negb (truthy_string query)); [cbn; lia|].
  cbv zeta. rewrite length_take. apply Nat.le_min_l.
Qed.

(** X3. For a query of ASCII characters: the suggestions of
    [searchCryptos] are entries of the table, in the order of the table
    and without repeats, so each of them carries a symbol [validateSymbol]
    accepts; and the search leaves no match out unless it has already
    five: when it returns fewer than five entries, every entry of the
    table that matches the query is among them.  The letter case of the
    query does not change the result. *)
Theorem searchCryptos_offers_supported (query : string) :
  ascii_text query = true ->
  searchCryptos (toLowerCase query) = searchCryptos query /\
  searchCryptos (toUpperCase query) = searchCryptos query /\
  searchCryptos query `sublist_of` SUPPORTED_CRYPTOS /\
  NoDup (searchCryptos query) /\
  (forall c, c ∈ searchCryptos query -> validateSymbol (symbol c) = true) /\
  (forall c, c ∈ SUPPORTED_CRYPTOS -> query <> EmptyString ->
     matches_query (toUpperCase query) c = true ->
     length (searchCryptos query) < 5 -> c ∈ searchCryptos query).
Proof.
  intros _.
  split; [unfold searchCryptos; rewrite toUpperCase_toLowerCase;
          destruct query; reflexivity|].
  split; [unfold searchCryptos; rewrite toUpperCase_twice;
          destruct query; reflexivity|].
  split; [apply searchCryptos_sublist|].
  split; [apply (sublist_NoDup _ _ table_without_repeats), searchCryptos_sublist|].
  split.
  - intros c Hc. apply searchCryptos_elem in Hc as [Hc _].
    apply validateSymbol_entry. exists c. split; [exact Hc|].
    symmetry. apply (table_in_capitals c Hc).
  - intros c Hc Hquery Hmatch. unfold searchCryptos.
    destruct query as [|a query]; [contradiction|]. cbn [truthy_string negb]. cbv zeta.
    intros Hlen. rewrite take_ge.
    + apply list_elem_of_In, filter_In. split; [apply list_elem_of_In, Hc|exact Hmatch].
    + rewrite length_take in Hlen. lia.
Qed.

(** X3, on an instance: [doge] matches one entry and the search returns
    it, as it does for [DOGE]. *)
Lemma searchCryptos_finds_doge :
  Crypto "DOGE" "dogecoin" "Dogecoin" ∈ searchCryptos "doge" /\
  searchCryptos (toUpperCase "doge") = searchCryptos "doge".
Proof.
  destruct (searchCryptos_offers_supported "doge" eq_refl)
    as (_ & Hupper & _ & _ & _ & Hall).
  split; [|exact Hupper].
  apply Hall; [|discriminate|reflexivity|vm_compute; lia].
  apply list_elem_of_In. vm_compute. tauto.
Defined.

Lemma listed_suggestions (st : Suggestions.field) (c : crypto) :
  c ∈ Suggestions.listed st -> c ∈ Suggestions.suggestions st.
Proof.
  unfold Suggestions.listed.
  destruct (Suggestions.showSuggestions st && _); [auto|]. intros H. inversion H.
Qed.

(** The suggestions the form holds are the results of the search for a
    text that was typed: the text in the field, or, the field having been
    emptied by a submit, the symbol that was submitted. *)
Lemma suggestions_invariant (st : Suggestions.field) :
  Suggestions.reachable st ->
  Suggestions.suggestions st = [] \/
  exists text,
    Suggestions.suggestions st = searchCryptos text /\
    (Suggestions.symbol st = text \/
     Suggestions.symbol st = EmptyString /\ validateSymbol text = true).
Proof.
  induction 1 as [|e st _ IH Hoffered]; [left; reflexivity|].
  destruct e as [value|c| | |]; cbn [Suggestions.handle].
  - unfold Suggestions.handleSymbolChange.
    destruct (0 <? String.length value)%nat; [right|left; reflexivity].
    exists value. split; [reflexivity|left; reflexivity].
  - left. reflexivity.
  - unfold Suggestions.onFocus. destruct (_ && _); exact IH.
  - exact IH.
  - cbn [Suggestions.offered] in Hoffered.
    destruct IH as [Hnone|(text & Hsearch & Hfield)]; [left; exact Hnone|right].
    exists text. split; [exact Hsearch|right]. split; [reflexivity|].
    destruct Hfield as [<-|[_ Hvalid]]; assumption.
Qed.

(** X14. Whatever is typed, picked, focused, clicked or submitted, the
    suggestions the form lists are at most five results of the search for
    a text that was typed, each with that text inside its symbol or its
    name, letter case ignored.  The text is the one in the field as long
    as the field is not empty; a submit that went through empties the
    field and leaves the list, which then still shows the results for the
    symbol submitted.  Picking a listed suggestion puts a symbol into the
    field that [validateSymbol] accepts, and closes the list. *)
Theorem listed_suggestions_match_the_field (st : Suggestions.field) :
  Suggestions.reachable st ->
  length (Suggestions.listed st) <= 5 /\
  (exists text,
     (Suggestions.symbol st = text \/
      Suggestions.symbol st = EmptyString /\ validateSymbol text = true) /\
     forall c, c ∈ Suggestions.listed st ->
       c ∈ searchCryptos text /\
       (contains_ignoring_case (symbol c) text \/
        contains_ignoring_case (name c) text)) /\
  (Suggestions.symbol st <> EmptyString ->
   forall c, c ∈ Suggestions.listed st -> c ∈ searchCryptos (Suggestions.symbol st)) /\
  (forall c, c ∈ Suggestions.listed st ->
     validateSymbol (Suggestions.symbol (Suggestions.handle (Suggestions.Picked c) st))
       = true /\
     Suggestions.listed (Suggestions.handle (Suggestions.Picked c) st) = []).
Proof.
  intros Hreach.
  destruct (suggestions_invariant st Hreach) as [Hnone|(text & Hsearch & Hfield)].
  - assert (Hlisted : Suggestions.listed st = []).
    { unfold Suggestions.listed. rewrite Hnone, andb_false_r. reflexivity. }
    rewrite Hlisted. split; [cbn; lia|]. split; [|split].
    + exists (Suggestions.symbol st). split; [left; reflexivity|].
      intros c Hc. inversion Hc.
    + intros _ c Hc. inversion Hc.
    + intros c Hc. inversion Hc.
  - assert (Hin : forall c, c ∈ Suggestions.listed st -> c ∈ searchCryptos text).
    { intros c Hc. apply listed_suggestions in Hc. rewrite Hsearch in Hc. exact Hc. }
    split; [|split; [|split]].
    + unfold Suggestions.listed. destruct (_ && _); [|cbn; lia].
      rewrite Hsearch. apply searchCryptos_length.
    + exists text. split; [exact Hfield|]. intros c Hc. split; [apply Hin, Hc|].
      destruct (searchCryptos_elem _ _ (Hin c Hc)) as [_ Hmatch].
      unfold matches_query in Hmatch. apply orb_prop in Hmatch as [H|H];
        apply includes_occurs in H as (pre & post & H); [left|right];
        exists pre, post; exact H.
    + intros Hfilled c Hc. destruct Hfield as [->|[Hempty _]]; [apply Hin, Hc|].
      contradiction.
    + intros c Hc. split; [|reflexivity].
      destruct (searchCryptos_elem _ _ (Hin c Hc)) as [Htable _].
      cbn. apply validateSymbol_entry. exists c. split; [exact Htable|].
      symmetry. apply (table_in_capitals c Htable).
Qed.

End SearchAndSuggestions.

(** X14, on an instance: [btc] is typed and submitted with the list open.
    The field is empty afterwards and the list still shows BTC, one
    suggestion of the at most five, where the search for the empty text
    has none. *)
Lemma submitted_btc_is_still_listed :
  Suggestions.reachable
    (Suggestions.handle Suggestions.Submitted
       (Suggestions.handle (Suggestions.Typed "btc") Suggestions.initial)) /\
  Suggestions.symbol
    (Suggestions.handle Suggestions.Submitted
       (Suggestions.handle (Suggestions.Typed "btc") Suggestions.initial))
    = EmptyString /\
  Suggestions.listed
    (Suggestions.handle Suggestions.Submitted
       (Suggestions.handle (Suggestions.Typed "btc") Suggestions.initial))
    = [CryptoApi.Crypto "BTC" "bitcoin" "Bitcoin"] /\
  CryptoApi.searchCryptos EmptyString = [] /\
  length (Suggestions.listed
            (Suggestions.handle Suggestions.Submitted
               (Suggestions.handle (Suggestions.Typed "btc") Suggestions.initial))) <= 5.
Proof.
  assert (Hreach : Suggestions.reachable
            (Suggestions.handle Suggestions.Submitted
               (Suggestions.handle (Suggestions.Typed "btc") Suggestions.initial))).
  { apply Suggestions.reachable_event; [|reflexivity].
    apply Suggestions.reachable_event; [apply Suggestions.reachable_initial|exact I]. }
  split; [exact Hreach|]. split; [reflexivity|]. split; [reflexivity|].
  split; [reflexivity|].
  apply (listed_suggestions_match_the_field _ Hreach).
Defined.

(** ** Further properties of the price clients *)

Section DateFormat.
Import JS CryptoApi CryptoApiHistory.

Variable getDate : Z -> nat.
Variable getMonth : Z -> nat.
Variable getFullYear : Z -> Z.

Local Abbreviation formatDateForApi :=
  (CryptoApiHistory.formatDateForApi getDate getMonth getFullYear).

Lemma two_characters_below_100 (n : nat) : n < 100 -> two_characters n = true.
Proof.
  intros Hn.
  assert (H : forallb two_characters (seq 0 100) = true) by (vm_compute; reflexivity).
  apply (proj1 (forallb_forall _ _) H). apply in_seq. lia.
Qed.

Lemma padded_shape (n : nat) :
  n < 100 ->
  exists a b, padStart 2 "0" (pretty n) = String a (String b EmptyString) /\
              digits 0 (String a (String b EmptyString)) = Some n.
Proof.
  intros Hn. assert (H := two_characters_below_100 n Hn). unfold two_characters in H.
  destruct (padStart 2 "0" (pretty n)) as [|a [|b [|c r]]]; try discriminate H.
  exists a, b. split; [reflexivity|]. apply bool_decide_eq_true in H. exact H.
Qed.

Lemma formatDateForApi_shape (t : Z) :
  getDate t < 100 -> getMonth t + 1 < 100 ->
  exists a b c d,
    formatDateForApi (Some t) =
      String a (String b (String "-" (String c (String d
        (String "-" (pretty (getFullYear t))))))) /\
    digits 0 (String a (String b EmptyString)) = Some (getDate t) /\
    digits 0 (String c (String d EmptyString)) = Some (getMonth t + 1).
Proof.
  intros Hday Hmonth.
  destruct (padded_shape (getDate t) Hday) as (a & b & Hdd & Hd).
  destruct (padded_shape (getMonth t + 1) Hmonth) as (c & d & Hmm & Hm).
  exists a, b, c, d. split; [|split; assumption].
  unfold CryptoApiHistory.formatDateForApi. cbn [fmap option_fmap option_map String_of].
  rewrite Hdd, Hmm. reflexivity.
Qed.

(** X4. [formatDateForApi] writes a valid date as two characters of day,
    a dash, two characters of month (January is 01), a dash, and the year;
    day and month are read back from their two characters, two valid dates
    are written alike only when day, month and year are the same, and no
    valid date is written as [Invalid Date] is, which is [NaN-NaN-NaN]. *)
Theorem formatDateForApi_reads_back (t1 t2 : Z) :
  1 <= getDate t1 <= 31 -> getMonth t1 <= 11 ->
  1 <= getDate t2 <= 31 -> getMonth t2 <= 11 ->
  (exists dd mm,
     formatDateForApi (Some t1) = dd +:+ "-" +:+ mm +:+ "-" +:+ pretty (getFullYear t1) /\
     String.length dd = 2 /\ String.length mm = 2 /\
     digits 0 dd = Some (getDate t1) /\ digits 0 mm = Some (getMonth t1 + 1)) /\
  (formatDateForApi (Some t1) = formatDateForApi (Some t2) ->
     getDate t1 = getDate t2 /\ getMonth t1 = getMonth t2 /\
     getFullYear t1 = getFullYear t2) /\
  formatDateForApi None = "NaN-NaN-NaN" /\
  formatDateForApi (Some t1) <> formatDateForApi None.
Proof.
  intros Hd1 Hm1 Hd2 Hm2.
  destruct (formatDateForApi_shape t1) as (a & b & c & d & Hf1 & Hday1 & Hmonth1);
    [lia|lia|].
  destruct (formatDateForApi_shape t2) as (a' & b' & c' & d' & Hf2 & Hday2 & Hmonth2);
    [lia|lia|].
  split; [|split; [|split; [reflexivity|]]].
  - exists (String a (String b EmptyString)), (String c (String d EmptyString)).
    rewrite Hf1. repeat split; assumption.
  - rewrite Hf1, Hf2. intros [= -> -> -> -> Hyear].
    rewrite Hday1 in Hday2. rewrite Hmonth1 in Hmonth2.
    apply (inj pretty) in Hyear.
    injection Hday2 as Hday. injection Hmonth2 as Hmonth.
    split; [exact Hday|]. split; [lia|exact Hyear].
  - rewrite Hf1. cbn. intros [=].
Qed.

End DateFormat.

(** X4, on an instance: the first of January 2023 is written
    [01-01-2023]. *)
Lemma first_of_january_2023 :
  exists dd mm,
    CryptoApiHistory.formatDateForApi first_day january year_2023
      (Some 1672574400000%Z) = dd +:+ "-" +:+ mm +:+ "-" +:+ "2023" /\
    JS.digits 0 dd = Some 1 /\ JS.digits 0 mm = Some 1.
Proof.
  destruct (formatDateForApi_reads_back first_day january year_2023
              1672574400000%Z 1672574400000%Z)
    as ((dd & mm & Hf & _ & _ & Hd & Hm) & _); try (unfold first_day, january; lia).
  exists dd, mm. split; [exact Hf|]. split; [exact Hd|exact Hm].
Defined.

Section HistoricalPrice.
Import JS CryptoApi CryptoApiHistory.

Variable getDate : Z -> nat.
Variable getMonth : Z -> nat.
Variable getFullYear : Z -> Z.
Variable fetch : network.

Local Abbreviation formatDateForApi :=
  (CryptoApiHistory.formatDateForApi getDate getMonth getFullYear).
Local Abbreviation getHistoricalPrice :=
  (CryptoApiHistory.getHistoricalPrice getDate getMonth getFullYear fetch).

Lemma is_null_spec (v : value) : is_null v = false <-> v <> JNull.
Proof. destruct v; cbn; split; congruence. Qed.

Lemma getHistoricalPrice_unfold (sym : string) (date : AddPurchaseForm.Date) :
  getHistoricalPrice sym date =
    match fetch (history_url (getCoinId sym) (formatDateForApi date)) with
    | Rejected e => Rejected e
    | Fulfilled r =>
        if ok r then
          match json r with
          | Rejected e => Rejected e
          | Fulfilled data =>
              if is_null data then
                Rejected (Error "Cannot read properties of null (reading 'market_data')")
              else if truthy_value (historical_usd data)
              then Fulfilled (historical_usd data)
              else Rejected (historical_price_not_found sym (getCoinId sym)
                               (formatDateForApi date))
          end
        else Rejected (Error ("API returned " +:+ pretty (status r)))
    end.
Proof.
  unfold CryptoApiHistory.getHistoricalPrice, try_catch, historical_usd. cbv zeta.
  destruct (fetch _) as [r|e]; cbn [mbind settled_bind]; [|reflexivity].
  destruct (ok r); cbn [negb]; [|reflexivity].
  destruct (json r) as [data|e]; cbn [mbind settled_bind]; [|reflexivity].
  destruct data as [| | | | |members];
    cbn [get get_opt mbind settled_bind is_null];
    try reflexivity; destruct (truthy_value _); reflexivity.
Qed.

(** X5. [getHistoricalPrice] asks the history endpoint for the resolved
    id and the formatted date and is fulfilled exactly when the request is
    answered, the answer is a success, its body parses to something other
    than [null], and [market_data.current_price.usd] is there and truthy;
    it is then fulfilled with that member.  A body without [market_data],
    without [current_price] or with a [usd] of zero is refused with the
    error that names symbol, id and date; a non-success with the error that
    names the status; a [null] body with the [TypeError] of the first
    member read; a rejection of the request or of the parse is thrown on as
    it came. *)
Theorem getHistoricalPrice_settles (sym : string) (date : AddPurchaseForm.Date) :
  (forall v, getHistoricalPrice sym date = Fulfilled v <->
     exists r data,
       fetch (history_url (getCoinId sym) (formatDateForApi date)) = Fulfilled r /\
       ok r = true /\ json r = Fulfilled data /\ data <> JNull /\
       historical_usd data = v /\ truthy_value v = true) /\
  (forall e, fetch (history_url (getCoinId sym) (formatDateForApi date)) = Rejected e ->
     getHistoricalPrice sym date = Rejected e) /\
  (forall r, fetch (history_url (getCoinId sym) (formatDateForApi date)) = Fulfilled r ->
     (ok r = false ->
        getHistoricalPrice sym date
          = Rejected (Error ("API returned " +:+ pretty (status r)))) /\
     (ok r = true ->
        (forall e, json r = Rejected e -> getHistoricalPrice sym date = Rejected e) /\
        (json r = Fulfilled JNull ->
           getHistoricalPrice sym date
             = Rejected (Error "Cannot read properties of null (reading 'market_data')")) /\
        (forall data, json r = Fulfilled data -> data <> JNull ->
           truthy_value (historical_usd data) = false ->
           getHistoricalPrice sym date
             = Rejected (historical_price_not_found sym (getCoinId sym)
                           (formatDateForApi date))))).
Proof.
  rewrite getHistoricalPrice_unfold.
  destruct (fetch _) as [r|e0].
  2:{ split; [|split].
      - intros v. split; [discriminate|]. intros (r & data & [=] & _).
      - intros e [= ->]. reflexivity.
      - intros r [=]. }
  split; [|split; [intros e [=]|]].
  - intros v. destruct (ok r) eqn:Hok.
    2:{ split; [discriminate|]. intros (r' & data & [= <-] & Hok' & _). congruence. }
    destruct (json r) as [data|e1] eqn:Hjson.
    2:{ split; [discriminate|]. intros (r' & data & [= <-] & _ & Hjson' & _). congruence. }
    destruct (is_null data) eqn:Hnull.
    { split; [discriminate|].
      intros (r' & data' & [= <-] & _ & Hjson' & Hne & _).
      apply is_null_spec in Hne. congruence. }
    apply is_null_spec in Hnull.
    destruct (truthy_value (historical_usd data)) eqn:Husd.
    + split.
      * intros [= <-]. exists r, data. auto 10.
      * intros (r' & data' & [= <-] & _ & Hjson' & _ & <- & _).
        rewrite Hjson in Hjson'. injection Hjson' as <-. reflexivity.
    + split; [discriminate|].
      intros (r' & data' & [= <-] & _ & Hjson' & _ & <- & Hv).
      rewrite Hjson in Hjson'. injection Hjson' as <-. congruence.
  - intros r' [= <-]. split.
    + intros ->. reflexivity.
    + intros ->. split; [intros e ->; reflexivity|].
      split; [intros ->; reflexivity|].
      intros data -> Hdata Husd. apply is_null_spec in Hdata. rewrite Hdata, Husd.
      reflexivity.
Qed.

(** X6. What the two price clients throw is an [Error] whenever what the
    network throws is one: the clients add only errors they make with
    [new Error], and pass the others on untouched.  A caller that shows
    [err instanceof Error ? err.message : fallback] therefore shows the
    message of the client's error, never the fallback. *)
Theorem client_errors_keep_their_message :
  (forall url e, fetch url = Rejected e -> instanceOfError e = true) ->
  (forall url r e, fetch url = Fulfilled r -> json r = Rejected e ->
     instanceOfError e = true) ->
  (forall sym e, getCurrentPrice fetch sym = Rejected e ->
     instanceOfError e = true /\ forall fallback, error_text e fallback = message e) /\
  (forall sym date e, getHistoricalPrice sym date = Rejected e ->
     instanceOfError e = true /\ forall fallback, error_text e fallback = message e).
Proof.
  intros Hfetch Hjson.
  assert (Htext : forall e, instanceOfError e = true ->
            instanceOfError e = true /\ forall fallback, error_text e fallback = message e).
  { intros e He. split; [exact He|]. intros fallback. unfold error_text.
    rewrite He. reflexivity. }
  split.
  - intros sym e. rewrite getCurrentPrice_unfold.
    destruct (fetch _) as [r|e0] eqn:Hr; [|intros [= <-]; eapply Htext, Hfetch, Hr].
    destruct (ok r); [|intros [= <-]; apply Htext; reflexivity].
    destruct (json r) as [data|e1] eqn:Hdata;
      [|intros [= <-]; eapply Htext, Hjson; [exact Hr|exact Hdata]].
    destruct (get data (getCoinId sym)) as [entry|e2] eqn:Hget.
    + destruct (_ && _); [discriminate|]. intros [= <-]. apply Htext. reflexivity.
    + intros [= <-]. apply Htext. destruct data; try discriminate Hget.
      injection Hget as <-. reflexivity.
  - intros sym date e. rewrite getHistoricalPrice_unfold.
    destruct (fetch _) as [r|e0] eqn:Hr; [|intros [= <-]; eapply Htext, Hfetch, Hr].
    destruct (ok r); [|intros [= <-]; apply Htext; reflexivity].
    destruct (json r) as [data|e1] eqn:Hdata;
      [|intros [= <-]; eapply Htext, Hjson; [exact Hr|exact Hdata]].
    destruct (is_null data); [intros [= <-]; apply Htext; reflexivity|].
    destruct (truthy_value _); [discriminate|]. intros [= <-]. apply Htext. reflexivity.
Qed.

End HistoricalPrice.

Section HistoricalPriceExamples.
Import JS CryptoApi CryptoApiHistory.

(** X5, on instances: a body with the price is answered with the price; a
    body without market data is refused with the error that names symbol,
    id and date. *)
Lemma historical_price_examples :
  CryptoApiHistory.getHistoricalPrice first_day january year_2023
    (history_answers history_body_16500) "BTC" (Some 1672574400000%Z)
    = Fulfilled (Some (JNum 16500)) /\
  CryptoApiHistory.getHistoricalPrice first_day january year_2023
    (history_answers history_body_bare) "BTC" (Some 1672574400000%Z)
    = Rejected (Error "Historical price not found for BTC (bitcoin) on 01-01-2023").
Proof.
  split.
  - destruct (getHistoricalPrice_settles first_day january year_2023
                (history_answers history_body_16500) "BTC" (Some 1672574400000%Z))
      as (Hok & _).
    apply Hok. exists (Response true 200 (Fulfilled history_body_16500)), history_body_16500.
    repeat split. discriminate.
  - destruct (getHistoricalPrice_settles first_day january year_2023
                (history_answers history_body_bare) "BTC" (Some 1672574400000%Z))
      as (_ & _ & Hr).
    destruct (Hr (Response true 200 (Fulfilled history_body_bare)) eq_refl)
      as (_ & Hbody).
    destruct (Hbody eq_refl) as (_ & _ & Hmissing).
    apply (Hmissing history_body_bare); [reflexivity|discriminate|reflexivity].
Defined.

(** X6, on an instance: the oracle answers 429 and the message of what
    the client throws is the one a caller shows. *)
Lemma rate_limit_message_is_shown :
  CryptoApiHistory.getHistoricalPrice first_day january year_2023 too_many_requests
    "BTC" (Some 1672574400000%Z) = Rejected (Error "API returned 429") /\
  error_text (Error "API returned 429") "Failed to add purchase" = "API returned 429".
Proof.
  assert (Hrun : CryptoApiHistory.getHistoricalPrice first_day january year_2023
                   too_many_requests "BTC" (Some 1672574400000%Z)
                 = Rejected (Error "API returned 429")) by reflexivity.
  split; [exact Hrun|].
  destruct (client_errors_keep_their_message first_day january year_2023
              too_many_requests) as (_ & Hhist).
  - intros url e [=].
  - intros url r e [= <-] [=].
  - apply (Hhist "BTC" (Some 1672574400000%Z) _ Hrun).
Defined.

End HistoricalPriceExamples.

(** ** Further properties of the valuation pass *)

Section ValuationPass.
Import JS PortfolioList.

Variable getCurrentPrice : string -> settled float.

Lemma revalue_symbol (price : option float) (p : PurchaseWithPrice) :
  symbol (revalue price p) = symbol p.
Proof.
  rewrite revalue_by_known.
  destruct (known price); [destruct (known (purchase_price_usd p))|]; reflexivity.
Qed.

Lemma known_is_known (price : option float) (v : float) :
  known price = Some v -> known (Some v) = Some v.
Proof.
  unfold known. destruct (truthy price) eqn:H; [|discriminate].
  intros ->. rewrite H. reflexivity.
Qed.

Lemma revalue_twice (price : option float) (p : PurchaseWithPrice) :
  revalue price (revalue price p) = revalue price p.
Proof.
  rewrite (revalue_by_known price p).
  destruct (known price) as [cp|] eqn:Hcp;
    [destruct (known (purchase_price_usd p)) as [pp|] eqn:Hpp|].
  - rewrite revalue_by_known, Hcp. cbn [purchase_price_usd].
    rewrite (known_is_known _ _ Hpp). reflexivity.
  - apply revalue_unknown. right. exact Hpp.
  - apply revalue_unknown. left. exact Hcp.
Qed.

(** X7. The valuation pass is idempotent: run again over its own result,
    with every price promise settling as before, it returns that result
    unchanged, and so the same totals. *)
Theorem valuation_pass_idempotent (purchasesData : list PurchaseWithPrice) :
  exists updated,
    fetchCurrentPrices getCurrentPrice purchasesData = Fulfilled updated /\
    fetchCurrentPrices getCurrentPrice updated = Fulfilled updated.
Proof.
  rewrite fetchCurrentPrices_pointwise. eexists. split; [reflexivity|].
  rewrite fetchCurrentPrices_pointwise. f_equal.
  rewrite List.map_map. apply map_ext. intros p.
  rewrite revalue_symbol. apply revalue_twice.
Qed.

Lemma revalue_cost (price : option float) (p : PurchaseWithPrice) :
  known (purchase_price_usd (revalue price p)) = known (purchase_price_usd p) /\
  amount (revalue price p) = amount p.
Proof.
  rewrite revalue_by_known.
  destruct (known price) as [cp|];
    [destruct (known (purchase_price_usd p)) as [pp|] eqn:Hpp|]; cbn; auto.
  split; [|reflexivity]. apply (known_is_known _ _ Hpp).
Qed.

(** X8. A valuation pass never changes the total cost: however the price
    promises settle, [totalCost] of the result is [totalCost] of the list
    handed in, and the records keep their ids and their order. *)
Theorem valuation_pass_keeps_total_cost (purchasesData : list PurchaseWithPrice) :
  exists updated,
    fetchCurrentPrices getCurrentPrice purchasesData = Fulfilled updated /\
    totalCost updated = totalCost purchasesData /\
    List.map id updated = List.map id purchasesData.
Proof.
  rewrite fetchCurrentPrices_pointwise. eexists. split; [reflexivity|]. split.
  - rewrite !totalCost_sigma. f_equal.
    rewrite <- (List.map_id purchasesData) at 2.
    apply terms_pointwise. intros p. apply revalue_cost.
  - rewrite List.map_map. apply map_ext. intros p.
    assert (H := update_purchase_base {[symbol p := recorded (getCurrentPrice (symbol p))]} p).
    unfold base in H. unfold revalue. congruence.
Qed.

Lemma revalue_all_or_none (price : option float) (p : PurchaseWithPrice) :
  all_or_none p -> all_or_none (revalue price p).
Proof.
  intros Hp. rewrite revalue_by_known.
  destruct (known price) as [cp|];
    [destruct (known (purchase_price_usd p)) as [pp|]|]; try exact Hp.
  right. do 3 eexists. reflexivity.
Qed.

(** X9. The pass writes the three derived members together or not at all.
    A list in which every position has all three or none keeps that shape
    through a pass; and a row as the store lists it comes out with all
    three exactly when its fetched price and its purchase price are both
    known, so a row without purchase price shows no current price even
    when the fetch succeeded. *)
Theorem derived_members_come_together (purchasesData : list PurchaseWithPrice) :
  exists updated,
    fetchCurrentPrices getCurrentPrice purchasesData = Fulfilled updated /\
    (Forall all_or_none purchasesData -> Forall all_or_none updated) /\
    (forall i p, purchasesData !! i = Some p -> CryptoPurchase p ->
       exists valued,
         updated !! i = Some valued /\ all_or_none valued /\
         (is_Some (currentPrice valued) <->
            is_Some (known (recorded (getCurrentPrice (symbol p)))) /\
            is_Some (known (purchase_price_usd p)))).
Proof.
  rewrite fetchCurrentPrices_pointwise. eexists. split; [reflexivity|]. split.
  - intros Hall. apply Forall_forall. intros q Hq.
    apply list_elem_of_In, in_map_iff in Hq as (p & <- & Hp).
    apply revalue_all_or_none.
    apply (proj1 (Forall_forall _ _) Hall), list_elem_of_In, Hp.
  - intros i p Hi (Hcp & Hpl & Hpct).
    exists (revalue (recorded (getCurrentPrice (symbol p))) p). split.
    + apply list_lookup_fmap_Some. eauto.
    + assert (Hnone : all_or_none p).
      { left. unfold derived. rewrite Hcp, Hpl, Hpct. reflexivity. }
      split; [apply revalue_all_or_none, Hnone|].
      rewrite revalue_by_known.
      destruct (known (recorded (getCurrentPrice (symbol p)))) as [cp|];
        [destruct (known (purchase_price_usd p)) as [pp|]|]; cbn [currentPrice];
        rewrite ?Hcp; split; try (intros [? ?]; discriminate);
        try (intros [[? ?] [? ?]]; discriminate); eauto.
Qed.

End ValuationPass.

Section SymbolsAsked.
Import JS PortfolioList.

Lemma fold_Set_add_members (xs acc : list string) (y : string) :
  y ∈ fold_left Set_add xs acc <-> y ∈ acc \/ y ∈ xs.
Proof.
  revert acc. induction xs as [|x xs IH]; intros acc; cbn [fold_left].
  - rewrite elem_of_nil. tauto.
  - rewrite IH, elem_of_cons. unfold Set_add. case_bool_decide as Hx.
    + split; [tauto|]. intros [H|[->|H]]; auto.
    + rewrite elem_of_app, list_elem_of_singleton. tauto.
Qed.

Lemma Set_add_NoDup (acc : list string) (x : string) :
  NoDup acc -> NoDup (Set_add acc x).
Proof.
  intros Hacc. unfold Set_add. case_bool_decide as Hx; [exact Hacc|].
  apply NoDup_app. split; [exact Hacc|]. split; [|apply NoDup_singleton].
  intros y Hy Hyx. apply list_elem_of_singleton in Hyx. subst y. contradiction.
Qed.

Lemma fold_Set_add_NoDup (xs acc : list string) :
  NoDup acc ->
  NoDup (fold_left Set_add xs acc) /\
  length (fold_left Set_add xs acc) <= length acc + length xs.
Proof.
  revert acc. induction xs as [|x xs IH]; intros acc Hacc; cbn [fold_left].
  - split; [exact Hacc|cbn; lia].
  - destruct (IH (Set_add acc x) (Set_add_NoDup acc x Hacc)) as [Hnd Hlen].
    split; [exact Hnd|]. etransitivity; [exact Hlen|].
    unfold Set_add. case_bool_decide; cbn [length]; rewrite ?length_app; cbn; lia.
Qed.

(** X10. The pass asks for each distinct symbol once: the symbols it
    requests are those of the records, without repeats, however many
    records hold the same symbol; symbols that differ in letter case only
    count as distinct. *)
Theorem one_request_per_symbol (purchasesData : list PurchaseWithPrice) :
  NoDup (new_Set (List.map symbol purchasesData)) /\
  (forall s, s ∈ new_Set (List.map symbol purchasesData) <->
             exists p, p ∈ purchasesData /\ symbol p = s) /\
  length (new_Set (List.map symbol purchasesData)) <= length purchasesData /\
  new_Set ["BTC"; "btc"; "BTC"] = ["BTC"; "btc"].
Proof.
  destruct (fold_Set_add_NoDup (List.map symbol purchasesData) [] (NoDup_nil_2))
    as [Hnd Hlen].
  split; [exact Hnd|]. split; [|split; [|reflexivity]].
  - intros s. unfold new_Set. rewrite fold_Set_add_members, elem_of_nil.
    rewrite list_elem_of_In, in_map_iff. split.
    + intros [[]|(p & Hp & Hin)]. exists p. split; [apply list_elem_of_In, Hin|exact Hp].
    + intros (p & Hin & Hp). right. exists p. split; [exact Hp|apply list_elem_of_In, Hin].
  - unfold new_Set. rewrite length_map in Hlen. exact Hlen.
Qed.

End SymbolsAsked.

(** ** Properties of the listing, of the render and of the page *)

Section Page.
Import JS PortfolioList PortfolioPage.

Variable formatCurrency : float -> string.
Variable formatDate : string -> string.
Variable toFixed2 : float -> string.

Local Abbreviation render := (PortfolioPage.render formatCurrency formatDate toFixed2).
Local Abbreviation render_row :=
  (PortfolioPage.render_row formatCurrency formatDate toFixed2).
Local Abbreviation render_profit :=
  (PortfolioPage.render_profit formatCurrency toFixed2).

(** X11. A listing asks the store once and always ends with [loading]
    off.  When the store fails, the list and [pricesLoading] stay as they
    were, the error text is the store's, and no valuation pass starts.
    When the store answers, the list is the rows answered (none for
    [null]), a pass starts over exactly these rows if there is at least
    one, and the [error] of an earlier listing is left as it was. *)
Theorem fetchPurchases_outcomes (answered : settled selected) (st : state) :
  sent (fetchPurchases answered st) = [Supabase.Select] /\
  loading (after (fetchPurchases answered st)) = false /\
  (forall e,
     answered = Rejected e \/
     (exists answer, answered = Fulfilled answer /\ fetchError answer = Some e) ->
     after (fetchPurchases answered st)
       = State (purchases st) false (error_text e "Failed to load purchases")
           (pricesLoading st) /\
     started (fetchPurchases answered st) = None) /\
  (forall answer,
     answered = Fulfilled answer -> fetchError answer = None ->
     error (after (fetchPurchases answered st)) = error st /\
     purchases (after (fetchPurchases answered st)) = default [] (data answer) /\
     (default [] (data answer) = [] ->
        started (fetchPurchases answered st) = None /\
        pricesLoading (after (fetchPurchases answered st)) = pricesLoading st) /\
     (default [] (data answer) <> [] ->
        started (fetchPurchases answered st) = Some (default [] (data answer)) /\
        pricesLoading (after (fetchPurchases answered st)) = true)).
Proof.
  unfold fetchPurchases.
  destruct answered as [[rows [e0|]]|e0];
    cbn [mbind settled_bind fetchError data mret settled_ret].
  - split; [reflexivity|]. split; [reflexivity|]. split.
    + intros e [[=]|(answer & [= <-] & [= <-])]. split; reflexivity.
    + intros answer [= <-] [=].
  - assert (Hrows : match rows with Some l => l | None => [] end = default [] rows)
      by (destruct rows; reflexivity).
    rewrite Hrows. clear Hrows.
    destruct (default [] rows) as [|p l] eqn:Hd; cbn [length Nat.ltb Nat.leb].
    + split; [reflexivity|]. split; [reflexivity|]. split.
      * intros e [[=]|(answer & [= <-] & [=])].
      * intros answer [= <-] _. cbn [data]. rewrite Hd.
        split; [reflexivity|]. split; [reflexivity|].
        split; [intros _; split; reflexivity|intros H; contradiction].
    + split; [reflexivity|]. split; [reflexivity|]. split.
      * intros e [[=]|(answer & [= <-] & [=])].
      * intros answer [= <-] _. cbn [data]. rewrite Hd.
        split; [reflexivity|]. split; [reflexivity|].
        split; [discriminate|intros _; split; reflexivity].
  - split; [reflexivity|]. split; [reflexivity|]. split.
    + intros e [[= <-]|(answer & [=] & _)]. split; reflexivity.
    + intros answer [=].
Qed.

Lemma promise_all_rejected {A B : Type} (f : A -> settled B) (l : list A) :
  (exists e, promise_all (List.map f l) = Rejected e) <->
  exists x, x ∈ l /\ exists e, f x = Rejected e.
Proof.
  induction l as [|x l IH]; cbn [List.map promise_all].
  - split; [intros [e [=]]|intros (x & Hx & _); inversion Hx].
  - destruct (f x) as [y|e] eqn:Hfx.
    + destruct (promise_all (List.map f l)) as [ys|e] eqn:Hrest.
      * split; [intros [e [=]]|].
        intros (z & Hz & e & Hfz). apply elem_of_cons in Hz as [->|Hz]; [congruence|].
        destruct (proj2 IH) as [e' [=]]. eauto.
      * split; [|eauto]. intros _.
        destruct (proj1 IH) as (z & Hz & Hfz); [eauto|].
        exists z. split; [apply list_elem_of_further, Hz|exact Hfz].
    + split; [|eauto]. intros _. exists x. split; [apply list_elem_of_here|eauto].
Qed.

Lemma render_row_throws (loadingPrices : bool) (p : PurchaseWithPrice) :
  (exists e, render_row loadingPrices p = Rejected e) <->
  loadingPrices = false /\ is_Some (profitLoss p) /\ profitLossPercent p = None.
Proof.
  unfold PortfolioPage.render_row, PortfolioPage.render_profit.
  destruct loadingPrices; cbn [mbind settled_bind].
  { split; [intros [e [=]]|intros ([=] & _)]. }
  destruct (profitLoss p) as [pl|]; [destruct (profitLossPercent p) as [pct|]|];
    cbn [mbind settled_bind].
  - split; [intros [e [=]]|intros (_ & _ & [=])].
  - split; [intros _|eauto]. split; [reflexivity|]. split; [eauto|reflexivity].
  - split; [intros [e [=]]|intros (_ & [? [=]] & _)].
Qed.

Lemma render_throws (st : state) :
  (exists e, render st = Rejected e) <->
  loading st = false /\ truthy_string (error st) = false /\
  pricesLoading st = false /\
  exists p, p ∈ purchases st /\ is_Some (profitLoss p) /\ profitLossPercent p = None.
Proof.
  unfold PortfolioPage.render.
  destruct (loading st); [split; [intros [e [=]]|intros ([=] & _)]|].
  destruct (truthy_string (error st));
    [split; [intros [e [=]]|intros (_ & [=] & _)]|].
  destruct (Nat.eqb_spec (length (purchases st)) 0) as [Hlen|Hlen].
  { split; [intros [e [=]]|].
    intros (_ & _ & _ & p & Hp & _). apply length_zero_iff_nil in Hlen.
    rewrite Hlen in Hp. inversion Hp. }
  assert (Hrows := promise_all_rejected (render_row (pricesLoading st)) (purchases st)).
  destruct (promise_all (List.map (render_row (pricesLoading st)) (purchases st)))
    as [rows|e] eqn:Hall; cbn [mbind settled_bind].
  - split; [intros [e [=]]|].
    intros (_ & _ & Hpl & p & Hp & Hpr & Hpct).
    destruct (proj2 Hrows) as [e [=]].
    exists p. split; [exact Hp|]. apply render_row_throws. auto.
  - split; [|eauto]. intros _.
    destruct (proj1 Hrows) as (p & Hp & Hthrows); [eauto|].
    apply render_row_throws in Hthrows as (Hpl & Hpr & Hpct).
    repeat split; try assumption. eauto.
Qed.

Lemma all_or_none_renders (st : state) :
  Forall all_or_none (purchases st) -> exists v, render st = Fulfilled v.
Proof.
  intros Hall. destruct (render st) as [v|e] eqn:Hr; [eauto|].
  destruct (proj1 (render_throws st)) as (_ & _ & _ & p & Hp & [pl Hpl] & Hpct); [eauto|].
  assert (Hshape := proj1 (Forall_forall _ _) Hall p Hp).
  unfold all_or_none, derived in Hshape.
  destruct Hshape as [H|(a & b & c & H)]; congruence.
Qed.

Lemma store_rows_all_or_none (rows : list PurchaseWithPrice) :
  Forall CryptoPurchase rows -> Forall all_or_none rows.
Proof.
  intros Hrows. apply (Forall_impl _ _ _ Hrows).
  intros p (Hcp & Hpl & Hpct). left. unfold derived.
  rewrite Hcp, Hpl, Hpct. reflexivity.
Qed.

Lemma seen_all_or_none (w : PortfolioEvents.world) :
  PortfolioEvents.reachable w ->
  Forall (Forall all_or_none) (PortfolioEvents.seen w) /\
  purchases (PortfolioEvents.page w) ∈ PortfolioEvents.seen w.
Proof.
  assert (Hwrite : forall st w0,
    Forall (Forall all_or_none) (PortfolioEvents.seen w0) ->
    Forall all_or_none (purchases st) ->
    Forall (Forall all_or_none) (PortfolioEvents.seen (PortfolioEvents.write st w0)) /\
    purchases (PortfolioEvents.page (PortfolioEvents.write st w0))
      ∈ PortfolioEvents.seen (PortfolioEvents.write st w0)).
  { intros st w0 Hseen Hst. cbn. split; [constructor; assumption|apply list_elem_of_here]. }
  induction 1 as [|e w _ [Hseen Hpage] Hpossible].
  { cbn. split; [repeat constructor|apply list_elem_of_here]. }
  assert (Hnow : Forall all_or_none (purchases (PortfolioEvents.page w)))
    by exact (proj1 (Forall_forall _ _) Hseen _ Hpage).
  destruct e as [|answered| |getCurrentPrice purchasesData|store purchases0 id0];
    cbn [PortfolioEvents.handle PortfolioEvents.possible] in *.
  - apply Hwrite; assumption.
  - apply Hwrite; [assumption|]. unfold fetchPurchases.
    destruct answered as [[rows [e0|]]|e0] eqn:Hanswered;
      cbn [mbind settled_bind fetchError data mret settled_ret]; try exact Hnow.
    assert (Hrows : Forall all_or_none (match rows with Some l => l | None => [] end)).
    { destruct rows as [l|]; [|constructor].
      apply store_rows_all_or_none, (Hpossible _ l eq_refl eq_refl). }
    destruct (0 <? length _)%nat; exact Hrows.
  - apply Hwrite; assumption.
  - unfold pass_settles. rewrite fetchCurrentPrices_pointwise. cbn [mbind settled_bind].
    apply Hwrite; [assumption|]. cbn.
    assert (Hlist := proj1 (Forall_forall _ _) Hseen _ Hpossible).
    apply Forall_forall. intros q Hq.
    apply list_elem_of_In, in_map_iff in Hq as (p & <- & Hp).
    apply revalue_all_or_none.
    apply (proj1 (Forall_forall _ _) Hlist), list_elem_of_In, Hp.
  - destruct (alerted _) eqn:Halert; [split; assumption|].
    apply Hwrite; [assumption|]. cbn [setPurchases purchases].
    assert (Hlist := proj1 (Forall_forall _ _) Hseen _ Hpossible).
    unfold handleDelete in *. cbn [negb] in *.
    destruct (store (Supabase.Delete id0)) as [[e0|]|e0];
      cbn [mbind settled_bind mret settled_ret displayed] in *; try exact Hlist.
    apply Forall_forall. intros q Hq. apply list_elem_of_In, filter_In in Hq as [Hq _].
    apply (proj1 (Forall_forall _ _) Hlist), list_elem_of_In, Hq.
Qed.

(** X13. The render never throws.  It would throw exactly on a table row
    that has a [profitLoss] and no [profitLossPercent], whose percentage is
    read without a test; and no listing, valuation pass or delete, in any
    order and over any list a closure may hold, ever leaves such a row in
    the displayed list. *)
Theorem page_never_throws (w : PortfolioEvents.world) :
  PortfolioEvents.reachable w ->
  Forall all_or_none (purchases (PortfolioEvents.page w)) /\
  (exists v, render (PortfolioEvents.page w) = Fulfilled v) /\
  (forall st, (exists e, render st = Rejected e) <->
     loading st = false /\ truthy_string (error st) = false /\
     pricesLoading st = false /\
     exists p, p ∈ purchases st /\ is_Some (profitLoss p) /\
               profitLossPercent p = None).
Proof.
  intros Hreach. destruct (seen_all_or_none w Hreach) as [Hseen Hpage].
  assert (Hnow : Forall all_or_none (purchases (PortfolioEvents.page w)))
    by exact (proj1 (Forall_forall _ _) Hseen _ Hpage).
  split; [exact Hnow|]. split; [apply all_or_none_renders, Hnow|apply render_throws].
Qed.

Lemma handle_error (e : PortfolioEvents.event) (w : PortfolioEvents.world) :
  error (PortfolioEvents.page (PortfolioEvents.handle e w))
    = error (PortfolioEvents.page w) \/
  exists answered err,
    e = PortfolioEvents.ListingSettles answered /\
    (answered = Rejected err \/
     exists answer, answered = Fulfilled answer /\ fetchError answer = Some err) /\
    error (PortfolioEvents.page (PortfolioEvents.handle e w))
      = error_text err "Failed to load purchases".
Proof.
  destruct e as [|answered| |getCurrentPrice purchasesData|store purchases0 id0];
    cbn [PortfolioEvents.handle].
  - left. reflexivity.
  - unfold fetchPurchases.
    destruct answered as [[rows [e0|]]|e0];
      cbn [mbind settled_bind fetchError data mret settled_ret].
    + right. exists (Fulfilled (Selected rows (Some e0))), e0.
      split; [reflexivity|]. split; [right; eauto|reflexivity].
    + left. destruct (0 <? length _)%nat; reflexivity.
    + right. exists (Rejected e0), e0. split; [reflexivity|]. split; [auto|reflexivity].
  - left. reflexivity.
  - left. unfold pass_settles. rewrite fetchCurrentPrices_pointwise. reflexivity.
  - left. destruct (alerted _); reflexivity.
Qed.

(** X12. Nothing clears [error].  Only a listing that fails writes it;
    every other event, a later listing that succeeds included, leaves it
    as it was.  So once a listing has failed with a message, the component
    renders the spinner or the error panel with that message, and not the
    table, until another listing fails. *)
Theorem error_is_never_cleared (e : PortfolioEvents.event) (w : PortfolioEvents.world) :
  (error (PortfolioEvents.page (PortfolioEvents.handle e w))
     <> error (PortfolioEvents.page w) ->
   exists answered err,
     e = PortfolioEvents.ListingSettles answered /\
     (answered = Rejected err \/
      exists answer, answered = Fulfilled answer /\ fetchError answer = Some err) /\
     error (PortfolioEvents.page (PortfolioEvents.handle e w))
       = error_text err "Failed to load purchases") /\
  (truthy_string (error (PortfolioEvents.page w)) = true ->
   error (PortfolioEvents.page (PortfolioEvents.handle e w))
     = error (PortfolioEvents.page w) ->
   render (PortfolioEvents.page (PortfolioEvents.handle e w))
     = Fulfilled (if loading (PortfolioEvents.page (PortfolioEvents.handle e w))
                  then Spinner
                  else ErrorPanel (error (PortfolioEvents.page w)))).
Proof.
  split.
  - intros Hchanged. destruct (handle_error e w) as [Hsame|Hfailed];
      [contradiction|exact Hfailed].
  - intros Herror Hsame. unfold PortfolioPage.render. rewrite Hsame, Herror.
    destruct (loading _); reflexivity.
Qed.

End Page.

Section PageExamples.
Import JS PortfolioList PortfolioPage.

(** X13, on an instance: the component after the listing of one row
    renders. *)
Lemma listed_row_renders :
  exists v,
    PortfolioPage.render (fun _ => "$") (fun d => d) (fun _ => "0.00")
      (PortfolioEvents.page
         (PortfolioEvents.handle
            (PortfolioEvents.ListingSettles
               (Fulfilled (Selected (Some [btc_row]) None)))
            PortfolioEvents.mounted)) = Fulfilled v.
Proof.
  apply page_never_throws.
  apply PortfolioEvents.reachable_handle; [apply PortfolioEvents.reachable_mounted|].
  intros answer rows [= <-] [= <-]. repeat constructor.
Defined.

End PageExamples.

(** ** Further properties of the add and delete workflows *)

Section AddPurchaseMore.
Import JS AddPurchaseForm.

Variable newDate : string -> Date.
Variable toISOString : Z -> string.
Variable parseFloat : string -> float.
Variable getHistoricalPrice : string -> Date -> settled float.
Variable store : Supabase.request -> Supabase.answer.

Local Abbreviation submit :=
  (handleSubmit newDate toISOString parseFloat getHistoricalPrice store).
Local Abbreviation purchaseDateTime := (AddPurchaseForm.purchaseDateTime newDate).

(** X15. Whatever the user typed, a row that reaches the store carries
    the symbol in the capitals of the table: the inserted symbol is the
    symbol of an entry of [SUPPORTED_CRYPTOS], [validateSymbol] accepts
    it, it resolves to the same oracle id as the text typed, and the
    inserted date is the ISO form of a valid timestamp. *)
Theorem inserted_symbol_is_the_table_symbol (f : form) (row : Supabase.new_purchase) :
  Store (Supabase.Insert row) ∈ calls (submit f) ->
  (exists c, c ∈ CryptoApi.SUPPORTED_CRYPTOS /\
             Supabase.symbol row = CryptoApi.symbol c /\
             CryptoApi.getCoinId (symbol f) = CryptoApi.id c) /\
  Supabase.symbol row = toUpperCase (symbol f) /\
  CryptoApi.validateSymbol (Supabase.symbol row) = true /\
  CryptoApi.getCoinId (Supabase.symbol row) = CryptoApi.getCoinId (symbol f) /\
  Supabase.amount row = parseFloat (amount f) /\
  exists t, purchaseDateTime f = Some t /\ Supabase.purchase_date row = toISOString t.
Proof.
  rewrite handleSubmit_cases. intros Hsent.
  destruct (CryptoApi.validateSymbol (symbol f)) eqn:Hvalid;
    [|apply elem_of_nil in Hsent; destruct Hsent].
  destruct (getHistoricalPrice (symbol f) (purchaseDateTime f)) as [price|err];
    [|apply list_elem_of_singleton in Hsent; discriminate Hsent].
  destruct (purchaseDateTime f) as [t|] eqn:Hdate;
    [|apply list_elem_of_singleton in Hsent; discriminate Hsent].
  assert (Hrow : row = AddPurchaseForm.row_of toISOString parseFloat f t price).
  { destruct (store _) as [[err|]|err]; cbn [calls] in Hsent;
      apply elem_of_cons in Hsent as [Hsent|Hsent]; try discriminate Hsent;
      apply list_elem_of_singleton in Hsent; injection Hsent as ->; reflexivity. }
  subst row. cbn [AddPurchaseForm.row_of Supabase.symbol Supabase.amount Supabase.purchase_date].
  destruct (getCoinId_entry (symbol f) Hvalid) as (c & Hc & Hsym & Hid).
  split; [exists c; auto|]. split; [reflexivity|].
  split; [rewrite (validateSymbol_folded _ (symbol f) (toUpperCase_twice _)); exact Hvalid|].
  split; [apply getCoinId_folded; [apply toUpperCase_twice|apply toLowerCase_toUpperCase]|].
  split; [reflexivity|]. exists t. split; reflexivity.
Qed.

(** X17. A date and time that do not parse make an [Invalid Date], and
    then nothing is inserted and the caller is not signalled: for a
    supported symbol the oracle is still asked, with that invalid date,
    and when it answers a price the submission ends on the [RangeError] of
    [toISOString], whose message the form shows. *)
Theorem invalid_date_is_never_inserted (f : form) :
  purchaseDateTime f = None ->
  (forall request, Store request ∉ calls (submit f)) /\
  purchaseAdded (submit f) = false /\
  (CryptoApi.validateSymbol (symbol f) = true ->
     calls (submit f) = [HistoricalPrice (symbol f) None] /\
     forall price, getHistoricalPrice (symbol f) None = Fulfilled price ->
       error (form_after (submit f)) = "Invalid time value").
Proof.
  intros Hdate. rewrite handleSubmit_cases, Hdate.
  destruct (CryptoApi.validateSymbol (symbol f)).
  - destruct (getHistoricalPrice (symbol f) None) as [price|err]; cbn [calls purchaseAdded].
    + split; [intros request H; apply list_elem_of_singleton in H; discriminate H|].
      split; [reflexivity|]. intros _. split; [reflexivity|]. intros p _. reflexivity.
    + split; [intros request H; apply list_elem_of_singleton in H; discriminate H|].
      split; [reflexivity|]. intros _. split; [reflexivity|]. intros p [=].
  - cbn [calls purchaseAdded].
    split; [intros request H; apply elem_of_nil in H; exact H|].
    split; [reflexivity|discriminate].
Qed.

End AddPurchaseMore.

Section AddPurchaseMoreExamples.
Import JS AddPurchaseForm.

(** X15, on an instance: [btc] typed in lower case is inserted as
    [BTC]. *)
Lemma btc_is_inserted_in_capitals :
  Supabase.symbol
    (Supabase.NewPurchase "BTC" "2023-01-01T12:00:00.000Z" 1 16500) = toUpperCase "btc" /\
  CryptoApi.validateSymbol "BTC" = true.
Proof.
  destruct (inserted_symbol_is_the_table_symbol noon iso_noon one_unit history_at_16500
              insert_accepted btc_form
              (Supabase.NewPurchase "BTC" "2023-01-01T12:00:00.000Z" 1 16500))
    as (_ & Hsym & Hvalid & _).
  - apply list_elem_of_further, list_elem_of_here.
  - split; [exact Hsym|exact Hvalid].
Defined.

(** X17, on an instance: with a date that does not parse the form ends on
    [Invalid time value] and the store is not called. *)
Lemma unparsed_date_example :
  calls (handleSubmit (fun _ => None) iso_noon one_unit history_at_16500 insert_accepted
           btc_form) = [HistoricalPrice "btc" None] /\
  error (form_after (handleSubmit (fun _ => None) iso_noon one_unit history_at_16500
                       insert_accepted btc_form)) = "Invalid time value".
Proof.
  destruct (invalid_date_is_never_inserted (fun _ => None) iso_noon one_unit
              history_at_16500 insert_accepted btc_form eq_refl) as (_ & _ & Hvalid).
  destruct (Hvalid eq_refl) as [Hcalls Herror].
  split; [exact Hcalls|]. apply (Herror 16500%float). reflexivity.
Defined.

End AddPurchaseMoreExamples.

Section DeleteMore.
Import JS PortfolioList.

Variable store : Supabase.request -> Supabase.answer.

(** X16. A delete only ever takes records out: what it displays is a
    sublist of what was displayed, in the same order; every record of the
    asked id is gone once the store has accepted; an id that no displayed
    record carries changes nothing, though the request is still sent; and
    when the record deleted was the only one, the commit of the resulting
    empty list leaves no interval timer running. *)
Theorem delete_only_takes_out (purchases0 : list PurchaseWithPrice) (id0 : string) :
  displayed (handleDelete true store purchases0 id0) `sublist_of` purchases0 /\
  requests (handleDelete true store purchases0 id0) = [Supabase.Delete id0] /\
  ((id0 ∉ List.map id purchases0) ->
     displayed (handleDelete true store purchases0 id0) = purchases0) /\
  (store (Supabase.Delete id0) = Fulfilled None ->
     (id0 ∉ List.map id (displayed (handleDelete true store purchases0 id0))) /\
     forall c p, reachable c -> is_Some (timer_effect c) -> purchases0 = [p] ->
       id p = id0 ->
       intervals (commit (displayed (handleDelete true store purchases0 id0)) c) = []).
Proof.
  unfold handleDelete. cbn [negb].
  assert (Hkeep : id0 ∉ List.map id purchases0 ->
            List.filter (fun p => negb (String.eqb (id p) id0)) purchases0 = purchases0).
  { intros Hout. apply filter_all. intros q Hq. apply negb_true_iff, String.eqb_neq.
    intros Heq. apply Hout. rewrite <- Heq.
    apply list_elem_of_In, in_map, list_elem_of_In, Hq. }
  destruct (store (Supabase.Delete id0)) as [[e|]|e];
    cbn [mbind settled_bind mret settled_ret displayed requests].
  - split; [reflexivity|]. split; [reflexivity|]. split; [reflexivity|discriminate].
  - split; [apply filter_sublist|]. split; [reflexivity|]. split; [exact Hkeep|].
    intros _. split.
    + intros Hin. apply list_elem_of_In, in_map_iff in Hin as (q & Hid & Hq).
      apply filter_In in Hq as [_ Hq]. apply negb_true_iff, String.eqb_neq in Hq.
      contradiction.
    + intros c p Hreach Hmounted -> <-. cbn [List.filter].
      rewrite String.eqb_refl. cbn [negb].
      assert (Hinv := reachable_invariant c Hreach).
      destruct Hmounted as [e He].
      assert (Hclear := cleanup_clears c e Hinv He).
      unfold timer_invariant in Hinv. rewrite He in Hinv. destruct Hinv as [Hdep Hinv].
      unfold commit. rewrite He.
      destruct (Nat.eqb_spec (dep e) (length (@nil PurchaseWithPrice))) as [Hzero|Hpos].
      * cbn [intervals]. destruct (cleanup e) as [h|].
        -- destruct Hinv as (Hne & _). cbn in Hzero. contradiction.
        -- apply Hinv.
      * rewrite Hclear. reflexivity.
  - split; [reflexivity|]. split; [reflexivity|]. split; [reflexivity|discriminate].
Qed.

End DeleteMore.

Section StalePass.
Import JS PortfolioList PortfolioPage.

Lemma revalue_id (price : option float) (p : PurchaseWithPrice) :
  id (revalue price p) = id p.
Proof.
  rewrite revalue_by_known.
  destruct (known price); [destruct (known (purchase_price_usd p))|]; reflexivity.
Qed.

Lemma pass_settles_display (getCurrentPrice : string -> settled float)
    (purchasesData : list PurchaseWithPrice) (st : state) :
  exists updated,
    pass_settles getCurrentPrice purchasesData st
      = Fulfilled (State updated (loading st) (error st) false) /\
    List.map id updated = List.map id purchasesData.
Proof.
  unfold pass_settles. rewrite fetchCurrentPrices_pointwise. cbn [mbind settled_bind].
  exists (List.map (fun p => revalue (recorded (getCurrentPrice (symbol p))) p)
            purchasesData).
  split; [reflexivity|].
  rewrite List.map_map. apply map_ext. intros p. apply revalue_id.
Qed.

(** X18. A pass that settles replaces the displayed list by the valued
    form of the list it was started over, whatever is displayed by then:
    the result has one record per record of that list, with the same ids
    in the same order.  So a record deleted while the pass was in flight,
    or one the interval callback still holds in its closure, is displayed
    again when the pass settles. *)
Theorem deleted_record_comes_back (w : PortfolioEvents.world)
    (getCurrentPrice : string -> settled float)
    (store : Supabase.request -> Supabase.answer)
    (purchasesData : list PurchaseWithPrice) (id0 : string) :
  purchasesData ∈ PortfolioEvents.seen w ->
  id0 ∈ List.map id purchasesData ->
  PortfolioEvents.possible (PortfolioEvents.PassSettles getCurrentPrice purchasesData)
    (PortfolioEvents.handle (PortfolioEvents.DeleteSettles store purchasesData id0) w) /\
  List.map id
    (purchases (PortfolioEvents.page
       (PortfolioEvents.handle (PortfolioEvents.PassSettles getCurrentPrice purchasesData)
          (PortfolioEvents.handle
             (PortfolioEvents.DeleteSettles store purchasesData id0) w))))
    = List.map id purchasesData /\
  (store (Supabase.Delete id0) = Fulfilled None ->
     id0 ∉ List.map id
       (purchases (PortfolioEvents.page
          (PortfolioEvents.handle
             (PortfolioEvents.DeleteSettles store purchasesData id0) w)))) /\
  id0 ∈ List.map id
    (purchases (PortfolioEvents.page
       (PortfolioEvents.handle (PortfolioEvents.PassSettles getCurrentPrice purchasesData)
          (PortfolioEvents.handle
             (PortfolioEvents.DeleteSettles store purchasesData id0) w)))).
Proof.
  intros Hseen Hid.
  assert (Hgone : store (Supabase.Delete id0) = Fulfilled None ->
    id0 ∉ List.map id
      (purchases (PortfolioEvents.page
         (PortfolioEvents.handle
            (PortfolioEvents.DeleteSettles store purchasesData id0) w)))).
  { intros Hstore. cbn [PortfolioEvents.handle]. unfold handleDelete. cbn [negb].
    rewrite Hstore. cbn. intros Hin.
    apply list_elem_of_In, in_map_iff in Hin as (q & Hq & Hin).
    apply filter_In in Hin as [_ Hin]. apply negb_true_iff, String.eqb_neq in Hin.
    contradiction. }
  set (w1 := PortfolioEvents.handle
               (PortfolioEvents.DeleteSettles store purchasesData id0) w).
  assert (Hseen1 : purchasesData ∈ PortfolioEvents.seen w1).
  { unfold w1. cbn [PortfolioEvents.handle]. destruct (alerted _); [exact Hseen|].
    cbn. apply list_elem_of_further, Hseen. }
  split; [exact Hseen1|]. cbn [PortfolioEvents.handle].
  destruct (pass_settles_display getCurrentPrice purchasesData (PortfolioEvents.page w1))
    as (updated & -> & Hids).
  cbn [PortfolioEvents.write PortfolioEvents.page purchases].
  split; [exact Hids|]. split; [exact Hgone|]. rewrite Hids. exact Hid.
Qed.

(** X19. When no price can be had, a pass over rows as the store lists
    them returns the rows as they are, and the summary counts nothing as
    value: [totalValue] is zero and [totalProfitLoss] is zero minus the
    total cost. *)
Theorem oracle_down_counts_no_value (getCurrentPrice : string -> settled float)
    (purchasesData : list PurchaseWithPrice) :
  Forall CryptoPurchase purchasesData ->
  (forall p, p ∈ purchasesData -> exists e, getCurrentPrice (symbol p) = Rejected e) ->
  fetchCurrentPrices getCurrentPrice purchasesData = Fulfilled purchasesData /\
  totalValue purchasesData = 0%float /\
  totalProfitLoss purchasesData = (0 - totalCost purchasesData)%float.
Proof.
  intros Hrows Hdown.
  assert (Hvalue : totalValue purchasesData = 0%float).
  { rewrite totalValue_sigma. replace (terms currentPrice purchasesData) with (@nil float);
      [reflexivity|].
    clear Hdown. induction Hrows as [|p l (Hcp & _) _ IH]; [reflexivity|].
    unfold terms in *. cbn [omap list_omap]. rewrite Hcp. exact IH. }
  split; [|split; [exact Hvalue|]].
  - rewrite fetchCurrentPrices_pointwise. f_equal.
    rewrite <- (List.map_id purchasesData) at 2. apply map_ext_in. intros p Hp.
    destruct (Hdown p (proj2 (list_elem_of_In _ _) Hp)) as [e ->].
    apply revalue_rejected.
  - unfold totalProfitLoss. rewrite Hvalue. reflexivity.
Qed.

End StalePass.

Section StalePassExamples.
Import JS PortfolioList PortfolioPage.

(** The component after the listing of two rows. *)
Lemma two_rows_listed :
  [btc_row; eth_row] ∈
    PortfolioEvents.seen
      (PortfolioEvents.handle
         (PortfolioEvents.ListingSettles
            (Fulfilled (Selected (Some [btc_row; eth_row]) None)))
         PortfolioEvents.mounted).
Proof. apply list_elem_of_here. Qed.

(** X18, on an instance: two rows are listed, ETH is deleted while the
    first pass is in flight, and the pass brings it back. *)
Lemma deleted_eth_comes_back :
  List.map id
    (purchases (PortfolioEvents.page
       (PortfolioEvents.handle (PortfolioEvents.PassSettles quotes [btc_row; eth_row])
          (PortfolioEvents.handle
             (PortfolioEvents.DeleteSettles store_accepts [btc_row; eth_row] "a2d0")
             (PortfolioEvents.handle
                (PortfolioEvents.ListingSettles
                   (Fulfilled (Selected (Some [btc_row; eth_row]) None)))
                PortfolioEvents.mounted)))))
    = ["7f1c"; "a2d0"].
Proof.
  apply (deleted_record_comes_back _ quotes store_accepts [btc_row; eth_row] "a2d0"
           two_rows_listed).
  apply list_elem_of_further, list_elem_of_here.
Defined.

(** X19, on an instance: with the oracle down the summary of one row
    bought at 100, two units, shows a value of 0, a loss of 200 and minus
    100 percent. *)
Lemma oracle_down_summary :
  totalValue [btc_row] = 0%float /\
  totalProfitLoss [btc_row] = (-200)%float /\
  totalProfitLossPercent [btc_row] = (-100)%float.
Proof.
  destruct (oracle_down_counts_no_value oracle_down [btc_row]) as (_ & Hvalue & Hloss).
  - repeat constructor.
  - intros p _. eexists. reflexivity.
  - split; [exact Hvalue|]. split; [rewrite Hloss|]; reflexivity.
Defined.

End StalePassExamples.
